(** * time-mcp: the tool dispatcher of [src/index.ts]

    A shallow embedding of the request handler of the time-mcp server and of
    the six calculation functions it dispatches to, followed by the
    properties of the specification that were checked against it.

    Layout of the file:
    - JavaScript strings as sequences of UTF-16 code units, with [trim] and
      the decimal rendering of numbers used by template literals;
    - the argument values the transport hands to the handler, with
      [typeof], the [in] operator and member reads;
    - the state-and-exception monad the code runs in: the wall clock, the
      trace of the calls made to the date library, thrown values;
    - the interface of the date library (dayjs) the code delegates to;
    - the program itself, function by function, under the names of the
      source;
    - a fixture: a small deterministic instance of the library interface on
      which the embedding is run on concrete inputs;
    - definitions that follow the words of the specification;
    - the lemmas and theorems.

    Numbers. [formatTimeDifference] and the template literals only ever see
    integers (offsets in minutes, epoch milliseconds, day and week counts)
    or [NaN]; integers are [Z], on which JavaScript's arithmetic is exact
    below 2^53. *)

From Stdlib Require Import ZArith NArith List String Ascii Lia Bool DecimalPos.
From stdpp Require Import base option gmap list.
Import ListNotations.

#[local] Set Warnings "-register-all".
#[local] Open Scope Z_scope.

(* ===================================================================== *)
(** * JavaScript strings *)
(* ===================================================================== *)

Module JsString.

(** A JavaScript string is a sequence of 16-bit code units. *)
Definition jsstring : Type := list N.

(** String literals of the source are written [lit "..."]; every literal of
    [index.ts] is ASCII, so one character is one code unit. *)
Fixpoint lit (s : string) : jsstring :=
  match s with
  | EmptyString => []
  | String c r => N_of_ascii c :: lit r
  end.

(** The empty string. *)
Definition empty : jsstring := [].

(** [s === t] on strings. *)
Definition str_eqb (s t : jsstring) : bool := bool_decide (s = t).

(** Truthiness of a string: only the empty string is falsy. *)
Definition truthy_str (s : jsstring) : bool :=
  match s with [] => false | _ :: _ => true end.

(** The code units [String.prototype.trim] strips: ECMA-262 WhiteSpace
    (TAB, VT, FF, SP, NBSP, ZWNBSP and the Unicode category Zs) and
    LineTerminator (LF, CR, LS, PS). *)
Definition isWhiteSpace (c : N) : bool :=
  ((9 <=? c) && (c <=? 13) ||
   (c =? 32) || (c =? 160) || (c =? 5760) ||
   (8192 <=? c) && (c <=? 8202) ||
   (c =? 8232) || (c =? 8233) || (c =? 8239) || (c =? 8287) ||
   (c =? 12288) || (c =? 65279))%N.

Fixpoint trimStart (s : jsstring) : jsstring :=
  match s with
  | [] => []
  | c :: r => if isWhiteSpace c then trimStart r else s
  end.

Definition trimEnd (s : jsstring) : jsstring := rev (trimStart (rev s)).

Definition trim (s : jsstring) : jsstring := trimEnd (trimStart s).

(** A string is blank when it is empty or whitespace-only, that is when
    [s.trim()] is the empty string. *)
Definition is_blank (s : jsstring) : bool := negb (truthy_str (trim s)).

(** Decimal digits of a natural number, most significant first. *)
Fixpoint digits (u : Decimal.uint) : jsstring :=
  match u with
  | Decimal.Nil => []
  | Decimal.D0 r => 48%N :: digits r
  | Decimal.D1 r => 49%N :: digits r
  | Decimal.D2 r => 50%N :: digits r
  | Decimal.D3 r => 51%N :: digits r
  | Decimal.D4 r => 52%N :: digits r
  | Decimal.D5 r => 53%N :: digits r
  | Decimal.D6 r => 54%N :: digits r
  | Decimal.D7 r => 55%N :: digits r
  | Decimal.D8 r => 56%N :: digits r
  | Decimal.D9 r => 57%N :: digits r
  end.

(** [String(n)] for an integer-valued number [n]. JavaScript prints an
    integer below 10^21 in magnitude in plain decimal; every number the
    program renders (offsets in minutes, epoch milliseconds, day and week
    counts) is far inside that range. *)
Definition Z_toString (z : Z) : jsstring :=
  match z with
  | Z0 => lit "0"
  | Zpos p => digits (Pos.to_uint p)
  | Zneg p => 45%N :: digits (Pos.to_uint p)
  end.

(** The numbers the library hands back: an integer, or [NaN] (what an
    invalid date answers to [valueOf], [daysInMonth], [week]). *)
Inductive number : Type :=
| Num (z : Z)
| NaN.

Definition Number_toString (n : number) : jsstring :=
  match n with
  | Num z => Z_toString z
  | NaN => lit "NaN"
  end.

End JsString.
Export JsString.

(* ===================================================================== *)
(** * Argument values *)
(* ===================================================================== *)

(** The [arguments] member of a tool call is decoded from JSON-RPC: it is
    absent ([undefined]) or a JSON value. *)
Inductive Json : Type :=
| JNull
| JBool (b : bool)
| JNumber (n : number)
| JString (s : jsstring)
| JArray (items : list Json)
| JObject (members : gmap jsstring Json).

(** A JavaScript value as the handler sees it: [None] is [undefined]. *)
Definition JsValue : Type := option Json.

Definition undefined : JsValue := None.

(** The results of the [typeof] operator. *)
Inductive TypeTag : Type :=
| TUndefined | TObject | TBoolean | TNumber | TString.

Definition TypeTag_eqb (a b : TypeTag) : bool :=
  match a, b with
  | TUndefined, TUndefined | TObject, TObject | TBoolean, TBoolean
  | TNumber, TNumber | TString, TString => true
  | _, _ => false
  end.

(** [typeof v]; [typeof null] and [typeof []] are both ['object']. *)
Definition typeof (v : JsValue) : TypeTag :=
  match v with
  | None => TUndefined
  | Some JNull => TObject
  | Some (JBool _) => TBoolean
  | Some (JNumber _) => TNumber
  | Some (JString _) => TString
  | Some (JArray _) => TObject
  | Some (JObject _) => TObject
  end.

(** [v === null] and [v === undefined]. *)
Definition is_null (v : JsValue) : bool :=
  match v with Some JNull => true | _ => false end.

Definition is_undefined (v : JsValue) : bool :=
  match v with None => true | _ => false end.

(** [k in v], asked by the validators only under the guard
    [typeof v === 'object' && v !== null] and only for the six argument
    names of the tools. None of these names is an array index, [length] or
    a member of [Object.prototype] or [Array.prototype], so the operator
    answers whether [k] is an own member of a decoded object and [false]
    on an array. *)
Definition has_member (k : jsstring) (v : JsValue) : bool :=
  match v with
  | Some (JObject m) => match m !! k with Some _ => true | None => false end
  | _ => false
  end.

(** [v.k] where [v] is neither [undefined] nor [null]: the member of an
    object, [undefined] when there is none or when [v] is an array or a
    primitive (for the argument names, see [has_member]). *)
Definition member (v : JsValue) (k : jsstring) : JsValue :=
  match v with
  | Some (JObject m) => m !! k
  | _ => undefined
  end.

(** TypeScript's narrowing of a validated member to [string] and to
    [string | undefined]. The validators guarantee the [JString] case
    wherever [as_string] is used, and that [as_opt_string] loses nothing
    (lemmas [checked_required] and [checked_optional] below). *)
Definition as_opt_string (v : JsValue) : option jsstring :=
  match v with
  | Some (JString s) => Some s
  | _ => None
  end.

Definition as_string (v : JsValue) : jsstring :=
  match v with
  | Some (JString s) => s
  | _ => []
  end.

(** Truthiness of a [string | undefined] value. *)
Definition truthy_opt (v : option jsstring) : bool :=
  match v with
  | Some s => truthy_str s
  | None => false
  end.

(** [`${v}`] for a [string | undefined] value. *)
Definition template_opt (v : option jsstring) : jsstring :=
  match v with
  | Some s => s
  | None => lit "undefined"
  end.

(* ===================================================================== *)
(** * Effects: the clock, the library call trace, thrown values *)
(* ===================================================================== *)

(** A thrown value: an [Error] object (among them [TypeError] and
    [RangeError]) with its [message], or something that is not an [Error],
    kept as what [String(value)] prints. *)
Inductive thrown : Type :=
| ErrorObj (message : jsstring)
| NonError (printed : jsstring).

(** The calls the program makes into the date library, in the order they
    are made. [None] as the argument of a constructor call is the call
    without argument, which reads the wall clock. *)
Inductive LibCall : Type :=
| Call_dayjs (date : option jsstring)
| Call_dayjs_utc (time : option jsstring)
| Call_tz_guess
| Call_isValid
| Call_tz (zone : jsstring)
| Call_utcOffset
| Call_format (pattern : jsstring)
| Call_valueOf
| Call_daysInMonth
| Call_week
| Call_isoWeek
| Call_fromNow.

(** The world one tool call runs in: [clock k] is what the [k]-th reading
    of the wall clock returns (epoch milliseconds), [ticks] counts the
    readings made so far, [trace] lists the library calls made so far. *)
Record State : Type := mkState {
  clock : nat -> Z;
  ticks : nat;
  trace : list LibCall;
}.

Inductive outcome (A : Type) : Type :=
| Returned (a : A)
| Threw (e : thrown).
Arguments Returned {A} a.
Arguments Threw {A} e.

Definition M (A : Type) : Type := State -> outcome A * State.

Definition ret {A} (a : A) : M A := fun st => (Returned a, st).

Definition bind {A B} (m : M A) (k : A -> M B) : M B :=
  fun st =>
    match m st with
    | (Returned a, st') => k a st'
    | (Threw e, st') => (Threw e, st')
    end.

Definition throw {A} (e : thrown) : M A := fun st => (Threw e, st).

(** [try { m } catch (error) { handler error }]. *)
Definition try_catch {A} (m : M A) (handler : thrown -> M A) : M A :=
  fun st =>
    match m st with
    | (Returned a, st') => (Returned a, st')
    | (Threw e, st') => handler e st'
    end.

Notation "'let*' x ':=' m 'in' k" := (bind m (fun x => k))
  (at level 10, x name, m at level 100, k at level 200).

(** [if (c) throw e;] *)
Definition throw_if {A} (c : bool) (e : thrown) (k : M A) : M A :=
  if c then throw e else k.

(** A library call that does not read the clock. *)
Definition called {A} (c : LibCall) (result : A) : M A :=
  fun st =>
    (Returned result,
     {| clock := clock st; ticks := ticks st; trace := trace st ++ [c] |}).

(** A library call that may throw. *)
Definition called_try {A} (c : LibCall) (result : outcome A) : M A :=
  fun st =>
    (result,
     {| clock := clock st; ticks := ticks st; trace := trace st ++ [c] |}).

(** A library call that reads the wall clock once. *)
Definition called_now {A} (c : LibCall) (result : Z -> A) : M A :=
  fun st =>
    (Returned (result (clock st (ticks st))),
     {| clock := clock st; ticks := S (ticks st); trace := trace st ++ [c] |}).

(** The message the engine (Node, V8) gives the [TypeError] of a property
    read on [undefined] or [null]. *)
Definition typeErrorMessage (v : JsValue) (k : jsstring) : jsstring :=
  lit "Cannot read properties of "
    ++ (if is_null v then lit "null" else lit "undefined")
    ++ lit " (reading '" ++ k ++ lit "')".

(** [v.k] in statement position: reading a member of [undefined] or [null]
    throws a [TypeError]. *)
Definition read_member (v : JsValue) (k : jsstring) : M JsValue :=
  if is_undefined v || is_null v
  then throw (ErrorObj (typeErrorMessage v k))
  else ret (member v k).

(* ===================================================================== *)
(** * The date library *)
(* ===================================================================== *)

(** What the program uses of dayjs and its plugins (utc, timezone,
    relativeTime, weekOfYear, isoWeek). The library, the zone database
    behind it and the host's zone are external: the program is verified
    against this interface, for every implementation of it. The answers
    of the library are functions of the object asked and of the arguments:
    the zone database and the host's zone do not change during a call, and
    only the constructors without argument and [fromNow] read the clock.
    [utcOffset] is asked of valid objects only and answers an integer of
    minutes.

    - [dayjs_now ms] and [dayjs_utc_now ms] are [dayjs()] and [dayjs.utc()]
      when the clock reads [ms];
    - [dayjs_parse s] and [dayjs_utc_parse s] are [dayjs(s)] and
      [dayjs.utc(s)]; a string that does not parse gives an object whose
      [isValid()] is [false];
    - [tz d zone] is [d.tz(zone)]; an identifier the zone database does not
      have makes it throw;
    - [fromNow d ms] is [d.fromNow()] when the clock reads [ms]. *)
Record Dayjs : Type := mkDayjs {
  dayjs_t : Type;
  dayjs_now : Z -> dayjs_t;
  dayjs_utc_now : Z -> dayjs_t;
  dayjs_parse : jsstring -> dayjs_t;
  dayjs_utc_parse : jsstring -> dayjs_t;
  tz_guess : jsstring;
  isValid : dayjs_t -> bool;
  tz : dayjs_t -> jsstring -> outcome dayjs_t;
  utcOffset : dayjs_t -> Z;
  format : dayjs_t -> jsstring -> jsstring;
  valueOf : dayjs_t -> number;
  daysInMonth : dayjs_t -> number;
  week : dayjs_t -> number;
  isoWeek : dayjs_t -> number;
  fromNow : dayjs_t -> Z -> jsstring;
}.

Section Library.

Context (L : Dayjs).

(** [dayjs(date)] with [date : string | undefined]. *)
Definition dayjs (date : option jsstring) : M (dayjs_t L) :=
  match date with
  | Some s => called (Call_dayjs date) (dayjs_parse L s)
  | None => called_now (Call_dayjs None) (dayjs_now L)
  end.

(** [dayjs.utc(time)] with [time : string | undefined]. *)
Definition dayjs_utc (time : option jsstring) : M (dayjs_t L) :=
  match time with
  | Some s => called (Call_dayjs_utc time) (dayjs_utc_parse L s)
  | None => called_now (Call_dayjs_utc None) (dayjs_utc_now L)
  end.

Definition do_tz_guess : M jsstring := called Call_tz_guess (tz_guess L).

Definition do_isValid (d : dayjs_t L) : M bool :=
  called Call_isValid (isValid L d).

Definition do_tz (d : dayjs_t L) (zone : jsstring) : M (dayjs_t L) :=
  called_try (Call_tz zone) (tz L d zone).

Definition do_utcOffset (d : dayjs_t L) : M Z :=
  called Call_utcOffset (utcOffset L d).

Definition do_format (d : dayjs_t L) (pattern : jsstring) : M jsstring :=
  called (Call_format pattern) (format L d pattern).

Definition do_valueOf (d : dayjs_t L) : M number :=
  called Call_valueOf (valueOf L d).

Definition do_daysInMonth (d : dayjs_t L) : M number :=
  called Call_daysInMonth (daysInMonth L d).

Definition do_week (d : dayjs_t L) : M number :=
  called Call_week (week L d).

Definition do_isoWeek (d : dayjs_t L) : M number :=
  called Call_isoWeek (isoWeek L d).

Definition do_fromNow (d : dayjs_t L) : M jsstring :=
  called_now Call_fromNow (fromNow L d).

End Library.

(* ===================================================================== *)
(** * The program: [src/index.ts] *)
(* ===================================================================== *)

(** The object [convertTime] returns. *)
Record Conversion : Type := mkConversion {
  sourceTime : jsstring;
  targetTime : jsstring;
  timeDiff : jsstring;
}.

(** One element of [content]. *)
Record TextContent : Type := mkTextContent {
  type_ : jsstring;
  text : jsstring;
}.

(** The envelope the request handler returns. *)
Record CallToolResult : Type := mkCallToolResult {
  success : bool;
  content : list TextContent;
}.

(** The six [case] labels of the handler's [switch (name)]. *)
Inductive Tool : Type :=
| current_time
| relative_time
| days_in_month
| get_timestamp
| convert_time
| get_week_year.

Definition tool_name (t : Tool) : jsstring :=
  match t with
  | current_time => lit "current_time"
  | relative_time => lit "relative_time"
  | days_in_month => lit "days_in_month"
  | get_timestamp => lit "get_timestamp"
  | convert_time => lit "convert_time"
  | get_week_year => lit "get_week_year"
  end.

(** Which [case] of [switch (name)] is taken; [None] is [default]. *)
Definition switch_name (name : jsstring) : option Tool :=
  if str_eqb name (lit "current_time") then Some current_time
  else if str_eqb name (lit "relative_time") then Some relative_time
  else if str_eqb name (lit "days_in_month") then Some days_in_month
  else if str_eqb name (lit "get_timestamp") then Some get_timestamp
  else if str_eqb name (lit "convert_time") then Some convert_time
  else if str_eqb name (lit "get_week_year") then Some get_week_year
  else None.

(** ** The validators (index.ts 313-385)

    Each is the source's chain of [&&], [||] and [? :] over [typeof], [in]
    and member reads, in the source's order. *)

Definition checkCurrentTimeArgs (args : JsValue) : bool :=
  TypeTag_eqb (typeof args) TObject &&
  negb (is_null args) &&
  has_member (lit "format") args &&
  TypeTag_eqb (typeof (member args (lit "format"))) TString &&
  (if has_member (lit "timezone") args
   then TypeTag_eqb (typeof (member args (lit "timezone"))) TString
   else true).

Definition checkRelativeTimeArgs (args : JsValue) : bool :=
  TypeTag_eqb (typeof args) TObject &&
  negb (is_null args) &&
  has_member (lit "time") args &&
  TypeTag_eqb (typeof (member args (lit "time"))) TString.

Definition checkDaysInMonthArgs (args : JsValue) : bool :=
  TypeTag_eqb (typeof args) TObject &&
  negb (is_null args) &&
  has_member (lit "date") args &&
  TypeTag_eqb (typeof (member args (lit "date"))) TString.

Definition checkTimestampArgs (args : JsValue) : bool :=
  if is_undefined args || is_null args then true
  else
    TypeTag_eqb (typeof args) TObject &&
    (negb (has_member (lit "time") args) ||
     TypeTag_eqb (typeof (member args (lit "time"))) TString).

Definition checkConvertTimeArgs (args : JsValue) : bool :=
  if negb (TypeTag_eqb (typeof args) TObject) || is_null args then false
  else
    let obj := args in
    if negb (has_member (lit "sourceTimezone") obj) ||
       negb (TypeTag_eqb (typeof (member obj (lit "sourceTimezone"))) TString)
    then false
    else if negb (has_member (lit "targetTimezone") obj) ||
            negb (TypeTag_eqb (typeof (member obj (lit "targetTimezone"))) TString)
    then false
    else if has_member (lit "time") obj &&
            negb (is_undefined (member obj (lit "time"))) &&
            negb (TypeTag_eqb (typeof (member obj (lit "time"))) TString)
    then false
    else true.

Definition checkWeekOfYearArgs (args : JsValue) : bool :=
  TypeTag_eqb (typeof args) TObject &&
  negb (is_null args) &&
  (if has_member (lit "date") args
   then TypeTag_eqb (typeof (member args (lit "date"))) TString
   else true).

(** ** Formatting a difference of minutes *)

(** [formatTimeDifference(minutes)] (index.ts 214-226). The argument is the difference of two
    [utcOffset()] results, integers of minutes, so [number] is [Z] here:
    [Math.floor(a / 60)] is floor division and [a % 60] the truncating
    remainder. *)
Definition formatTimeDifference (minutes : Z) : jsstring :=
  let absMinutes := Z.abs minutes in
  let hours := absMinutes / 60 in
  let mins := Z.rem absMinutes 60 in
  let sign := if minutes <? 0 then lit "-" else lit "+" in
  if mins =? 0 then
    sign ++ Z_toString hours ++ lit " hour"
      ++ (if negb (hours =? 1) then lit "s" else empty)
  else
    sign ++ Z_toString hours ++ lit " hour"
      ++ (if negb (hours =? 1) then lit "s" else empty)
      ++ lit " " ++ Z_toString mins ++ lit " minute"
      ++ (if negb (mins =? 1) then lit "s" else empty).

Section Program.

Context (L : Dayjs).

(** ** The calculation functions (index.ts 166-208) *)

Record CurrentTime : Type := mkCurrentTime {
  ct_utc : jsstring;
  ct_local : jsstring;
  ct_timezone : jsstring;
}.

(** [dayjs.utc()] and [dayjs()] are two readings of the clock. *)
Definition getCurrentTime (format_ : jsstring) (timezone : option jsstring)
  : M CurrentTime :=
  let* utcTime := dayjs_utc L None in
  let* localTimezone :=
    (match timezone with
     | Some z => ret z
     | None => do_tz_guess L
     end) in
  let* here := dayjs L None in
  let* localTime := do_tz L here localTimezone in
  let* u := do_format L utcTime format_ in
  let* l := do_format L localTime format_ in
  ret {| ct_utc := u; ct_local := l; ct_timezone := localTimezone |}.

(** [fromNow()] reads the clock. *)
Definition getRelativeTime (time : jsstring) : M jsstring :=
  let* d := dayjs L (Some time) in
  do_fromNow L d.

(** [time ? dayjs.utc(time).valueOf() : dayjs().valueOf()]. *)
Definition getTimestamp (time : option jsstring) : M number :=
  if truthy_opt time then
    let* d := dayjs_utc L time in
    do_valueOf L d
  else
    let* d := dayjs L None in
    do_valueOf L d.

(** [date ? dayjs(date).daysInMonth() : dayjs().daysInMonth()]. *)
Definition getDaysInMonth (date : option jsstring) : M number :=
  if truthy_opt date then
    let* d := dayjs L date in
    do_daysInMonth L d
  else
    let* d := dayjs L None in
    do_daysInMonth L d.

(** The pair is [(week, isoWeek)]; each component parses the date, or
    reads the clock, on its own. *)
Definition getWeekOfYear (date : option jsstring) : M (number * number) :=
  let* week_ :=
    (if truthy_opt date
     then let* d := dayjs L date in do_week L d
     else let* d := dayjs L None in do_week L d) in
  let* isoWeek_ :=
    (if truthy_opt date
     then let* d := dayjs L date in do_isoWeek L d
     else let* d := dayjs L None in do_isoWeek L d) in
  ret (week_, isoWeek_).

(** [time && time.trim() !== ''] of [convertTime] and of the handler. *)
Definition hasValidTime (time : option jsstring) : bool :=
  match time with
  | Some t => truthy_str t && negb (str_eqb (trim t) (empty))
  | None => false
  end.

Definition formatString : jsstring := lit "YYYY-MM-DD HH:mm:ss".

(** [convertTime] (index.ts 255-311). The [try] block checks the zones,
    resolves the instant, checks it, takes the two zone views of it, checks
    them ([||] asks the target only when the source is valid), reads the
    two offsets, and formats the two times and the difference; the [catch]
    rethrows with both zones and the cause. *)
Definition convertTime (sourceTimezone targetTimezone : jsstring)
    (time : option jsstring) : M Conversion :=
  try_catch
    (throw_if
       (negb (truthy_str (trim sourceTimezone)) ||
        negb (truthy_str (trim targetTimezone)))
       (ErrorObj (lit
          "Source and target timezones are required and cannot be empty"))
     (let* momentInTime :=
        (if hasValidTime time then dayjs_utc L time else dayjs_utc L None) in
      let* valid := do_isValid L momentInTime in
      throw_if (negb valid)
        (ErrorObj (lit "Invalid time value provided: " ++ template_opt time))
      (let* sourceTime_ := do_tz L momentInTime sourceTimezone in
       let* targetTime_ := do_tz L momentInTime targetTimezone in
       let* sourceValid := do_isValid L sourceTime_ in
       let* bothValid :=
         (if sourceValid then do_isValid L targetTime_ else ret false) in
       throw_if (negb bothValid)
         (ErrorObj (lit "Invalid timezone conversion"))
       (let* sourceOffsetMinutes := do_utcOffset L sourceTime_ in
        let* targetOffsetMinutes := do_utcOffset L targetTime_ in
        let diffMinutes := targetOffsetMinutes - sourceOffsetMinutes in
        let* s := do_format L sourceTime_ formatString in
        let* t := do_format L targetTime_ formatString in
        ret {| sourceTime := s;
               targetTime := t;
               timeDiff := formatTimeDifference diffMinutes |}))))
    (fun error =>
       let message :=
         match error with
         | ErrorObj m => m
         | NonError _ => lit "Unknown error"
         end in
       throw (ErrorObj
         (lit "Failed to convert time from " ++ sourceTimezone
            ++ lit " to " ++ targetTimezone ++ lit ": " ++ message))).

End Program.

Section Handler.

Context (L : Dayjs).

(** ** The request handler for [CallToolRequestSchema] (index.ts 36-161) *)

Definition text_result (ok : bool) (message : jsstring) : CallToolResult :=
  {| success := ok;
     content := [ {| type_ := lit "text"; text := message |} ] |}.

(** [new Error(`Invalid arguments for tool: [${name}]`)]. *)
Definition invalid_arguments (name : jsstring) : thrown :=
  ErrorObj (lit "Invalid arguments for tool: [" ++ name ++ lit "]").

(** [new Error(`Unknown tool: ${name}`)]. *)
Definition unknown_tool (name : jsstring) : thrown :=
  ErrorObj (lit "Unknown tool: " ++ name).

(** The [try] block of the handler. A destructuring [const { a, b } = args]
    is reached only behind a validator that has established that [args] is
    an object, so it reads members without throwing; [args.k] is
    [read_member]. *)
Definition callToolBody (name : jsstring) (args : JsValue) : M CallToolResult :=
  match switch_name name with
  | Some current_time =>
      throw_if (negb (checkCurrentTimeArgs args)) (invalid_arguments name)
      (let format_ := as_string (member args (lit "format")) in
       let timezone := as_opt_string (member args (lit "timezone")) in
       let* result := getCurrentTime L format_ timezone in
       ret (text_result true
              (lit "Current UTC time is " ++ ct_utc result
                 ++ lit ", and the time in " ++ ct_timezone result
                 ++ lit " is " ++ ct_local result ++ lit ".")))
  | Some relative_time =>
      throw_if (negb (checkRelativeTimeArgs args)) (invalid_arguments name)
      (let* time_ := read_member args (lit "time") in
       let* result := getRelativeTime L (as_string time_) in
       ret (text_result true result))
  | Some days_in_month =>
      throw_if (negb (checkDaysInMonthArgs args)) (invalid_arguments name)
      (let* date_ := read_member args (lit "date") in
       let* result := getDaysInMonth L (as_opt_string date_) in
       ret (text_result true
              (lit "The number of days in month is "
                 ++ Number_toString result ++ lit ".")))
  | Some get_timestamp =>
      throw_if (negb (checkTimestampArgs args)) (invalid_arguments name)
      (let* time_ := read_member args (lit "time") in
       let time := as_opt_string time_ in
       let* result := getTimestamp L time in
       ret (text_result true
              (if truthy_opt time
               then lit "The timestamp of " ++ template_opt time
                      ++ lit " (parsed as UTC) is "
                      ++ Number_toString result ++ lit " ms."
               else lit "The current timestamp is "
                      ++ Number_toString result ++ lit " ms.")))
  | Some convert_time =>
      throw_if (negb (checkConvertTimeArgs args)) (invalid_arguments name)
      (let sourceTimezone := as_string (member args (lit "sourceTimezone")) in
       let targetTimezone := as_string (member args (lit "targetTimezone")) in
       let time := as_opt_string (member args (lit "time")) in
       let* c := convertTime L sourceTimezone targetTimezone time in
       let timeContext :=
         if hasValidTime time
         then lit "At " ++ template_opt time ++ lit ", the"
         else lit "The current" in
       ret (text_result true
              (timeContext ++ lit " time in " ++ sourceTimezone
                 ++ lit " is " ++ sourceTime c
                 ++ lit ", and in " ++ targetTimezone
                 ++ lit " is " ++ targetTime c
                 ++ lit ". Time difference: " ++ timeDiff c ++ lit ".")))
  | Some get_week_year =>
      throw_if (negb (checkWeekOfYearArgs args)) (invalid_arguments name)
      (let date := as_opt_string (member args (lit "date")) in
       let* wk := getWeekOfYear L date in
       ret (text_result true
              (lit "The week of the year is " ++ Number_toString (fst wk)
                 ++ lit ", and the isoWeek of the year is "
                 ++ Number_toString (snd wk) ++ lit ".")))
  | None => throw (unknown_tool name)
  end.

(** [error instanceof Error ? error.message : String(error)]. *)
Definition error_message (error : thrown) : jsstring :=
  match error with
  | ErrorObj m => m
  | NonError printed => printed
  end.

(** The handler: the [try] block and its [catch]. *)
Definition callToolHandler (name : jsstring) (args : JsValue)
  : M CallToolResult :=
  try_catch (callToolBody name args)
    (fun error => ret (text_result false (error_message error))).

End Handler.

(* ===================================================================== *)
(** * A fixture for the date library *)
(* ===================================================================== *)

(** A small deterministic implementation of the [Dayjs] interface, used to
    run the embedding on concrete inputs. It is not dayjs: it knows a
    handful of zones without daylight saving, reads only the two ISO 8601
    shapes [YYYY-MM-DD] and [YYYY-MM-DD(T| )HH:mm:ss], formats only the six
    tokens of [formatString], assumes a host in UTC, and approximates the
    long spans of [fromNow]. The general theorems below quantify over every
    implementation of the interface; the fixture only supplies inputs. *)
Module Fixture.

(** Days since 1970-01-01 of a proleptic Gregorian date, as [Date.UTC]
    computes them: months and days out of range carry over. *)
Definition days_from_civil (y m d : Z) : Z :=
  let y0 := y + (m - 1) / 12 in
  let m0 := (m - 1) mod 12 + 1 in
  let y1 := if m0 <=? 2 then y0 - 1 else y0 in
  let era := y1 / 400 in
  let yoe := y1 - era * 400 in
  let mp := if m0 <=? 2 then m0 + 9 else m0 - 3 in
  let doy := (153 * mp + 2) / 5 in
  let doe := yoe * 365 + yoe / 4 - yoe / 100 + doy in
  era * 146097 + doe - 719468 + (d - 1).

(** The Gregorian date (year, month, day) of a day number. *)
Definition civil_from_days (days : Z) : Z * Z * Z :=
  let z := days + 719468 in
  let era := z / 146097 in
  let doe := z - era * 146097 in
  let yoe := (doe - doe / 1460 + doe / 36524 - doe / 146096) / 365 in
  let doy := doe - (365 * yoe + yoe / 4 - yoe / 100) in
  let mp := (5 * doy + 2) / 153 in
  let d := doy - (153 * mp + 2) / 5 + 1 in
  let m := if mp <? 10 then mp + 3 else mp - 9 in
  let y := yoe + era * 400 + (if m <=? 2 then 1 else 0) in
  (y, m, d).

Definition ms_per_day : Z := 86400000.

(** A date object: epoch milliseconds ([None] is an invalid date) and the
    offset from UTC, in minutes, of the zone it is viewed in. *)
Record date : Type := mkDate {
  epoch : option Z;
  offset : Z;
}.

Definition digit (c : N) : option Z :=
  if ((48 <=? c) && (c <=? 57))%N then Some (Z.of_N c - 48) else None.

Fixpoint number_of (acc : Z) (cs : list N) : option Z :=
  match cs with
  | [] => Some acc
  | c :: r =>
      match digit c with
      | Some v => number_of (acc * 10 + v) r
      | None => None
      end
  end.

Definition field (cs : list N) : option Z :=
  match cs with [] => None | _ => number_of 0 cs end.

Definition is_sep (sep c : N) : bool := (c =? sep)%N.

(** Epoch milliseconds of an ISO 8601 string read as UTC. *)
Definition parse_utc (s : jsstring) : option Z :=
  match s with
  | [y1; y2; y3; y4; d1; m1; m2; d2; a1; a2] =>
      if is_sep 45 d1 && is_sep 45 d2 then
        match field [y1; y2; y3; y4], field [m1; m2], field [a1; a2] with
        | Some y, Some m, Some d => Some (days_from_civil y m d * ms_per_day)
        | _, _, _ => None
        end
      else None
  | [y1; y2; y3; y4; d1; m1; m2; d2; a1; a2; t;
     h1; h2; c1; n1; n2; c2; s1; s2] =>
      if is_sep 45 d1 && is_sep 45 d2 && (is_sep 84 t || is_sep 32 t)
         && is_sep 58 c1 && is_sep 58 c2 then
        match field [y1; y2; y3; y4], field [m1; m2], field [a1; a2],
              field [h1; h2], field [n1; n2], field [s1; s2] with
        | Some y, Some m, Some d, Some hh, Some mi, Some ss =>
            Some (days_from_civil y m d * ms_per_day
                  + hh * 3600000 + mi * 60000 + ss * 1000)
        | _, _, _, _, _, _ => None
        end
      else None
  | _ => None
  end.

(** The zone table: identifier and offset from UTC in minutes. *)
Definition zones : list (jsstring * Z) :=
  [ (lit "UTC", 0);
    (lit "Asia/Kolkata", 330);
    (lit "Asia/Colombo", 330);
    (lit "Asia/Kathmandu", 345);
    (lit "Asia/Dhaka", 360);
    (lit "Asia/Tokyo", 540);
    (lit "America/Bogota", -300) ].

Fixpoint zone_offset (table : list (jsstring * Z)) (zone : jsstring)
  : option Z :=
  match table with
  | [] => None
  | (z, o) :: r => if str_eqb z zone then Some o else zone_offset r zone
  end.

Definition in_zone (d : date) (zone : jsstring) : outcome date :=
  match zone_offset zones zone with
  | Some o => Returned {| epoch := epoch d; offset := o |}
  | None => Threw (ErrorObj (lit "Invalid time zone specified: " ++ zone))
  end.

(** The wall-clock reading of a date in its zone, in milliseconds. *)
Definition local_ms (ms off : Z) : Z := ms + off * 60000.

Definition pad (width : nat) (z : Z) : jsstring :=
  let ds := Z_toString z in
  repeat 48%N (width - length ds)%nat ++ ds.

(** The value of one token of a pattern. *)
Definition token (ms off : Z) (w : N) (n : nat) : jsstring :=
  let l := local_ms ms off in
  let '(y, m, d) := civil_from_days (l / ms_per_day) in
  let r := l mod ms_per_day in
  if (w =? 89)%N then pad n y
  else if (w =? 77)%N then pad n m
  else if (w =? 68)%N then pad n d
  else if (w =? 72)%N then pad n (r / 3600000)
  else if (w =? 109)%N then pad n (r / 60000 mod 60)
  else pad n (r / 1000 mod 60).

(** [YYYY], [MM], [DD], [HH], [mm], [ss] are replaced, any other code unit
    is copied. *)
Fixpoint render (ms off : Z) (p : jsstring) : jsstring :=
  match p with
  | 89%N :: 89%N :: 89%N :: 89%N :: r => token ms off 89 4 ++ render ms off r
  | 77%N :: 77%N :: r => token ms off 77 2 ++ render ms off r
  | 68%N :: 68%N :: r => token ms off 68 2 ++ render ms off r
  | 72%N :: 72%N :: r => token ms off 72 2 ++ render ms off r
  | 109%N :: 109%N :: r => token ms off 109 2 ++ render ms off r
  | 115%N :: 115%N :: r => token ms off 115 2 ++ render ms off r
  | c :: r => c :: render ms off r
  | [] => []
  end.

Definition format_date (d : date) (pattern : jsstring) : jsstring :=
  match epoch d with
  | Some ms => render ms (offset d) pattern
  | None => lit "Invalid Date"
  end.

Definition on_date (f : Z -> Z -> Z) (d : date) : number :=
  match epoch d with
  | Some ms => Num (f (local_ms ms (offset d) / ms_per_day) ms)
  | None => NaN
  end.

Definition days_in_month_of (days : Z) : Z :=
  let '(y, m, _) := civil_from_days days in
  days_from_civil y (m + 1) 1 - days_from_civil y m 1.

(** Day of the week of a day number, Sunday is 0. *)
Definition weekday (days : Z) : Z := (days + 4) mod 7.

(** Week of the year, weeks starting on Sunday, the week of January 1st
    being week 1. *)
Definition week_of (days : Z) : Z :=
  let '(y, m, d) := civil_from_days days in
  let saturday := days - weekday days + 6 in
  if (m =? 12) && (25 <? d) && (days_from_civil (y + 1) 1 1 <=? saturday)
  then 1
  else
    let jan1 := days_from_civil y 1 1 in
    (days - (jan1 - weekday jan1)) / 7 + 1.

(** ISO 8601 week: the week of a day is the week of its Thursday. *)
Definition iso_week_of (days : Z) : Z :=
  let thursday := days - (days + 3) mod 7 + 3 in
  let '(y, _, _) := civil_from_days thursday in
  (thursday - days_from_civil y 1 1) / 7 + 1.

(** [Math.round] of [a / b] for [0 <= a], [0 < b]. *)
Definition round_div (a b : Z) : Z := (2 * a + b) / (2 * b).

Definition span (n : Z) (one many : string) : jsstring :=
  if n <=? 1 then lit one else Z_toString n ++ lit many.

Definition humanize (d : Z) : jsstring :=
  let s := round_div d 1000 in
  let mi := round_div d 60000 in
  let h := round_div d 3600000 in
  let dd := round_div d ms_per_day in
  if s <=? 44 then lit "a few seconds"
  else if s <=? 89 then lit "a minute"
  else if mi <=? 44 then span mi "a minute" " minutes"
  else if mi <=? 89 then lit "an hour"
  else if h <=? 21 then span h "an hour" " hours"
  else if h <=? 35 then lit "a day"
  else if dd <=? 25 then span dd "a day" " days"
  else if dd <=? 45 then lit "a month"
  else if round_div dd 30 <=? 10 then span (round_div dd 30) "a month" " months"
  else if round_div dd 30 <=? 17 then lit "a year"
  else span (round_div dd 365) "a year" " years".

Definition from_now (d : date) (now : Z) : jsstring :=
  match epoch d with
  | Some ms =>
      if now <? ms then lit "in " ++ humanize (ms - now)
      else humanize (now - ms) ++ lit " ago"
  | None => lit "Invalid Date"
  end.

Definition lib : Dayjs :=
  {| dayjs_t := date;
     dayjs_now := fun ms => {| epoch := Some ms; offset := 0 |};
     dayjs_utc_now := fun ms => {| epoch := Some ms; offset := 0 |};
     dayjs_parse := fun s => {| epoch := parse_utc s; offset := 0 |};
     dayjs_utc_parse := fun s => {| epoch := parse_utc s; offset := 0 |};
     tz_guess := lit "UTC";
     isValid := fun d => match epoch d with Some _ => true | None => false end;
     tz := in_zone;
     utcOffset := offset;
     format := format_date;
     valueOf := fun d => match epoch d with Some ms => Num ms | None => NaN end;
     daysInMonth := on_date (fun days _ => days_in_month_of days);
     week := on_date (fun days _ => week_of days);
     isoWeek := on_date (fun days _ => iso_week_of days);
     fromNow := from_now |}.

(** A world whose clock reads [t0] first and advances by [step]
    milliseconds with every reading; nothing has been called yet. *)
Definition world (t0 step : Z) : State :=
  {| clock := fun k => t0 + step * Z.of_nat k; ticks := 0; trace := [] |}.

(** Named inputs. *)
Definition utc_zone : jsstring := lit "UTC".
Definition kolkata : jsstring := lit "Asia/Kolkata".
Definition colombo : jsstring := lit "Asia/Colombo".
Definition kathmandu : jsstring := lit "Asia/Kathmandu".

(** 2025-10-17T00:00:00Z in epoch milliseconds. *)
Definition midnight : Z := 1760659200000.

(** An argument object from its members. *)
Definition object (members : list (jsstring * Json)) : JsValue :=
  Some (JObject (list_to_map members)).

End Fixture.

(* ===================================================================== *)
(** * The specification's side *)
(* ===================================================================== *)

(** Definitions that follow the words of the specification, to be compared
    with the program above. *)

(** "singular hour/minute when the magnitude is exactly 1". *)
Definition spec_unit (n : Z) (unit : string) : jsstring :=
  Z_toString n ++ lit " " ++ lit unit ++ (if n =? 1 then [] else lit "s").

(** "a sign followed by floor(|m|/60) hours, with the minute remainder
    |m| mod 60 appended only when it is non-zero". *)
Definition spec_rendered_difference (m : Z) : jsstring :=
  let h := Z.abs m / 60 in
  let r := Z.abs m mod 60 in
  (if m <? 0 then lit "-" else lit "+")
    ++ spec_unit h "hour"
    ++ (if r =? 0 then [] else lit " " ++ spec_unit r "minute").

(** The contract table of section 4.1: the required and the optional
    arguments of each tool, all of them strings. *)
Definition spec_required (t : Tool) : list jsstring :=
  match t with
  | current_time => [lit "format"]
  | relative_time => [lit "time"]
  | convert_time => [lit "sourceTimezone"; lit "targetTimezone"]
  | days_in_month | get_timestamp | get_week_year => []
  end.

Definition spec_optional (t : Tool) : list jsstring :=
  match t with
  | current_time => [lit "timezone"]
  | relative_time => []
  | days_in_month => [lit "date"]
  | get_timestamp => [lit "time"]
  | convert_time => [lit "time"]
  | get_week_year => [lit "date"]
  end.

(** "missing required field": the argument value has no such member. *)
Definition spec_missing (args : JsValue) (k : jsstring) : bool :=
  is_undefined (member args k).

(** "field of the wrong primitive type": the member is there and is not a
    string. *)
Definition spec_wrong_type (args : JsValue) (k : jsstring) : bool :=
  match member args k with
  | Some v => negb (TypeTag_eqb (typeof (Some v)) TString)
  | None => false
  end.

(** Malformed arguments for a tool, after section 7: "argument mapping
    missing a required field or a field of the wrong primitive type". *)
Definition spec_malformed (t : Tool) (args : JsValue) : bool :=
  existsb (spec_missing args) (spec_required t) ||
  existsb (spec_wrong_type args) (spec_required t ++ spec_optional t).

(** Step 1 of section 4.2, as written: "parse the given string as UTC if
    present, else take the current instant". *)
Definition spec_instant (L : Dayjs) (time : option jsstring) (now : Z)
  : dayjs_t L :=
  match time with
  | Some t => dayjs_utc_parse L t
  | None => dayjs_utc_now L now
  end.

(** Steps 2 to 5 of section 4.2: what is reported when both zone views are
    taken of one instant [i]. *)
Definition spec_conversion (L : Dayjs) (i : dayjs_t L)
    (sourceTimezone targetTimezone : jsstring) : option Conversion :=
  match tz L i sourceTimezone, tz L i targetTimezone with
  | Returned s, Returned t =>
      Some {| sourceTime := format L s formatString;
              targetTime := format L t formatString;
              timeDiff := formatTimeDifference (utcOffset L t - utcOffset L s) |}
  | _, _ => None
  end.

(** The instant [convertTime] works from: the given string parsed as UTC
    when it is given and not blank, otherwise the reading of the clock. *)
Definition shared_instant (L : Dayjs) (time : option jsstring) (now : Z)
  : dayjs_t L :=
  match time with
  | Some t => if is_blank t then dayjs_utc_now L now else dayjs_utc_parse L t
  | None => dayjs_utc_now L now
  end.

(** The one constructor call that produces it. *)
Definition shared_instant_call (time : option jsstring) : LibCall :=
  match time with
  | Some t => if is_blank t then Call_dayjs_utc None else Call_dayjs_utc (Some t)
  | None => Call_dayjs_utc None
  end.

(** How many times the clock is read for it. *)
Definition shared_instant_reads (time : option jsstring) : nat :=
  match time with
  | Some t => if is_blank t then 1%nat else 0%nat
  | None => 1%nat
  end.

(** Whether a library call converts to a zone, reads an offset or formats. *)
Definition is_conversion_call (c : LibCall) : bool :=
  match c with
  | Call_tz _ | Call_utcOffset | Call_format _ => true
  | _ => false
  end.

(** The error [convertTime] rethrows: both zones and the cause. *)
Definition conversion_failure (sourceTimezone targetTimezone cause : jsstring)
  : thrown :=
  ErrorObj (lit "Failed to convert time from " ++ sourceTimezone
              ++ lit " to " ++ targetTimezone ++ lit ": " ++ cause).

(** What [convertTime] rethrows when the library threw [e]. *)
Definition rethrown (src tgt : jsstring) (e : thrown) : thrown :=
  conversion_failure src tgt
    (match e with ErrorObj m => m | NonError _ => lit "Unknown error" end).

(** A value is a string, or at most a string. *)
Definition is_string (v : JsValue) : Prop := exists s, v = Some (JString s).

Definition at_most_string (v : JsValue) : Prop := v = undefined \/ is_string v.

(** The validator the handler runs in the [case] of each tool. *)
Definition check_args (t : Tool) : JsValue -> bool :=
  match t with
  | current_time => checkCurrentTimeArgs
  | relative_time => checkRelativeTimeArgs
  | days_in_month => checkDaysInMonthArgs
  | get_timestamp => checkTimestampArgs
  | convert_time => checkConvertTimeArgs
  | get_week_year => checkWeekOfYearArgs
  end.

(** A computation of the handler's [try] block that, when it returns,
    returns a success envelope with one text. *)
Definition returns_success (m : M CallToolResult) : Prop :=
  forall st r st',
    m st = (Returned r, st') -> exists message, r = text_result true message.


(** The validator of convert_time as it was before the instant became
    optional (the earlier revisions of the file under [src/unnamed]). *)
Module Legacy.

Definition checkConvertTimeArgs (args : JsValue) : bool :=
  TypeTag_eqb (typeof args) TObject &&
  negb (is_null args) &&
  has_member (lit "sourceTimezone") args &&
  TypeTag_eqb (typeof (member args (lit "sourceTimezone"))) TString &&
  has_member (lit "targetTimezone") args &&
  TypeTag_eqb (typeof (member args (lit "targetTimezone"))) TString &&
  has_member (lit "time") args &&
  TypeTag_eqb (typeof (member args (lit "time"))) TString.

End Legacy.

(** The state after the library calls [cs], of which [n] read the clock. *)
Definition after (st : State) (n : nat) (cs : list LibCall) : State :=
  {| clock := clock st; ticks := (ticks st + n)%nat; trace := trace st ++ cs |}.

(* ===================================================================== *)
(** * Strings *)
(* ===================================================================== *)

(** The six ways a call of [convertTime] can go, with what it returns or
    throws and the state it ends in: a blank zone; an invalid instant; the
    library refusing the source zone, or the target zone; an invalid zone
    view; success. *)
Inductive ConvertTimeRun (L : Dayjs) (src tgt : jsstring)
    (time : option jsstring) (st : State)
  : outcome Conversion * State -> Prop :=
| run_blank_zone :
    is_blank src = true \/ is_blank tgt = true ->
    ConvertTimeRun L src tgt time st
      (Threw (conversion_failure src tgt (lit
         "Source and target timezones are required and cannot be empty")),
       st)
| run_invalid_instant :
    is_blank src = false -> is_blank tgt = false ->
    isValid L (shared_instant L time (clock st (ticks st))) = false ->
    ConvertTimeRun L src tgt time st
      (Threw (conversion_failure src tgt
         (lit "Invalid time value provided: " ++ template_opt time)),
       after st (shared_instant_reads time)
         [shared_instant_call time; Call_isValid])
| run_source_zone_throws (e : thrown) :
    is_blank src = false -> is_blank tgt = false ->
    isValid L (shared_instant L time (clock st (ticks st))) = true ->
    tz L (shared_instant L time (clock st (ticks st))) src = Threw e ->
    ConvertTimeRun L src tgt time st
      (Threw (rethrown src tgt e),
       after st (shared_instant_reads time)
         [shared_instant_call time; Call_isValid; Call_tz src])
| run_target_zone_throws (s : dayjs_t L) (e : thrown) :
    is_blank src = false -> is_blank tgt = false ->
    isValid L (shared_instant L time (clock st (ticks st))) = true ->
    tz L (shared_instant L time (clock st (ticks st))) src = Returned s ->
    tz L (shared_instant L time (clock st (ticks st))) tgt = Threw e ->
    ConvertTimeRun L src tgt time st
      (Threw (rethrown src tgt e),
       after st (shared_instant_reads time)
         [shared_instant_call time; Call_isValid; Call_tz src; Call_tz tgt])
| run_invalid_view (s g : dayjs_t L) :
    is_blank src = false -> is_blank tgt = false ->
    isValid L (shared_instant L time (clock st (ticks st))) = true ->
    tz L (shared_instant L time (clock st (ticks st))) src = Returned s ->
    tz L (shared_instant L time (clock st (ticks st))) tgt = Returned g ->
    isValid L s && isValid L g = false ->
    ConvertTimeRun L src tgt time st
      (Threw (conversion_failure src tgt (lit "Invalid timezone conversion")),
       after st (shared_instant_reads time)
         ([shared_instant_call time; Call_isValid; Call_tz src; Call_tz tgt;
           Call_isValid] ++ (if isValid L s then [Call_isValid] else [])))
| run_success (s g : dayjs_t L) :
    is_blank src = false -> is_blank tgt = false ->
    isValid L (shared_instant L time (clock st (ticks st))) = true ->
    tz L (shared_instant L time (clock st (ticks st))) src = Returned s ->
    tz L (shared_instant L time (clock st (ticks st))) tgt = Returned g ->
    isValid L s = true -> isValid L g = true ->
    ConvertTimeRun L src tgt time st
      (Returned {| sourceTime := format L s formatString;
                   targetTime := format L g formatString;
                   timeDiff :=
                     formatTimeDifference (utcOffset L g - utcOffset L s) |},
       after st (shared_instant_reads time)
         [shared_instant_call time; Call_isValid; Call_tz src; Call_tz tgt;
          Call_isValid; Call_isValid; Call_utcOffset; Call_utcOffset;
          Call_format formatString; Call_format formatString]).

Arguments lit : simpl never.

Section StringFacts.

Lemma trimStart_nil_iff (s : jsstring) :
  trimStart s = [] <-> forallb isWhiteSpace s = true.
Proof.
  induction s as [|c r IH]; simpl.
  - split; reflexivity.
  - destruct (isWhiteSpace c); simpl.
    + exact IH.
    + split; discriminate.
Qed.

Lemma trimStart_head (s : jsstring) (c : N) (r : jsstring) :
  trimStart s = c :: r -> isWhiteSpace c = false.
Proof.
  induction s as [|a q IH]; simpl.
  - discriminate.
  - destruct (isWhiteSpace a) eqn:Ha.
    + exact IH.
    + intros E. injection E as -> _. exact Ha.
Qed.

(** A string is blank exactly when every code unit of it is white space;
    in particular the empty string is blank. *)
Lemma is_blank_iff (s : jsstring) :
  is_blank s = true <-> forallb isWhiteSpace s = true.
Proof.
  unfold is_blank, trim, trimEnd.
  split.
  - intros H.
    assert (T : trimStart (rev (trimStart s)) = []).
    { destruct (trimStart (rev (trimStart s))) as [|x xs] eqn:K; [reflexivity|].
      destruct (rev (x :: xs)) as [|y ys] eqn:R; [|discriminate H].
      apply (f_equal (@rev N)) in R. rewrite rev_involutive in R. discriminate R. }
    apply trimStart_nil_iff in T.
    destruct (trimStart s) as [|c r] eqn:K.
    + apply trimStart_nil_iff. exact K.
    + apply trimStart_head in K as W.
      rewrite forallb_forall in T.
      specialize (T c). rewrite <- in_rev in T.
      rewrite T in W; [discriminate | left; reflexivity].
  - intros H. apply trimStart_nil_iff in H. rewrite H. reflexivity.
Qed.

Lemma is_blank_empty : is_blank (empty) = true.
Proof. reflexivity. Qed.

(** [time && time.trim() !== ''] holds exactly of a string that is given
    and not blank. *)
Lemma hasValidTime_Some (t : jsstring) :
  hasValidTime (Some t) = negb (is_blank t).
Proof.
  unfold hasValidTime, is_blank, str_eqb. rewrite negb_involutive.
  destruct t as [|c r]; [reflexivity|]. simpl truthy_str. simpl andb.
  destruct (trim (c :: r)) as [|x xs]; reflexivity.
Qed.

End StringFacts.

(* ===================================================================== *)
(** * Rendering a difference of minutes *)
(* ===================================================================== *)

Section Rendering.

Lemma formatTimeDifference_spec (m : Z) :
  formatTimeDifference m = spec_rendered_difference m.
Proof.
  unfold formatTimeDifference, spec_rendered_difference, spec_unit.
  assert (R : Z.rem (Z.abs m) 60 = Z.abs m mod 60)
    by (apply Z.rem_mod_nonneg; lia).
  rewrite R.
  destruct (Z.abs m mod 60 =? 0);
    destruct (Z.abs m / 60 =? 1), (Z.abs m mod 60 =? 1), (m <? 0);
    simpl negb; cbv iota;
    repeat rewrite <- app_assoc; repeat rewrite app_nil_r; reflexivity.
Qed.

(** C2. For every integer difference of minutes [m], the rendered string is
    the sign, then floor(|m|/60) hours, then the remainder |m| mod 60 in
    minutes only when it is not zero, each unit in the singular exactly
    when its count is 1; 330 gives "+5 hours 30 minutes", -300 gives
    "-5 hours" and -301 gives "-5 hours 1 minute". *)
Theorem formatTimeDifference_renders :
  (forall m : Z, formatTimeDifference m = spec_rendered_difference m) /\
  formatTimeDifference 330 = lit "+5 hours 30 minutes" /\
  formatTimeDifference (-300) = lit "-5 hours" /\
  formatTimeDifference (-301) = lit "-5 hours 1 minute".
Proof.
  split; [exact formatTimeDifference_spec|].
  repeat split; vm_compute; reflexivity.
Qed.

Lemma formatTimeDifference_sign (m : Z) :
  exists rest,
    formatTimeDifference m = (if m <? 0 then 45%N else 43%N) :: rest.
Proof.
  unfold formatTimeDifference.
  destruct (Z.rem (Z.abs m) 60 =? 0), (m <? 0); eexists; reflexivity.
Qed.

Lemma formatTimeDifference_zero_hours (m : Z) :
  0 < Z.abs m < 60 ->
  formatTimeDifference m =
    (if m <? 0 then lit "-" else lit "+") ++ lit "0 hours "
      ++ spec_unit (Z.abs m) "minute".
Proof.
  intros H. rewrite formatTimeDifference_spec.
  unfold spec_rendered_difference.
  rewrite (Z.div_small (Z.abs m) 60) by lia.
  rewrite (Z.mod_small (Z.abs m) 60) by lia.
  destruct (Z.abs m =? 0) eqn:E; [apply Z.eqb_eq in E; lia|].
  destruct (m <? 0); reflexivity.
Qed.

End Rendering.

(* ===================================================================== *)
(** * [convertTime] *)
(* ===================================================================== *)

Ltac run_monad :=
  unfold throw_if, bind, ret, throw, try_catch,
    dayjs, dayjs_utc, do_tz_guess, do_isValid, do_tz, do_utcOffset,
    do_format, do_valueOf, do_daysInMonth, do_week, do_isoWeek, do_fromNow,
    called, called_try, called_now, after; cbn.

Section ConvertTime.

Context (L : Dayjs).

(** The first step of [convertTime]: resolving the instant. *)
Lemma resolve_instant (time : option jsstring) (st : State) :
  (if hasValidTime time then dayjs_utc L time else dayjs_utc L None) st =
  (Returned (shared_instant L time (clock st (ticks st))),
   after st (shared_instant_reads time) [shared_instant_call time]).
Proof.
  destruct time as [t|].
  - rewrite hasValidTime_Some. unfold shared_instant, shared_instant_reads,
      shared_instant_call.
    destruct (is_blank t); run_monad;
      rewrite ?Nat.add_0_r, ?Nat.add_1_r; reflexivity.
  - run_monad. rewrite Nat.add_1_r. reflexivity.
Qed.

Lemma convertTime_blank_zone src tgt time st :
  is_blank src = true \/ is_blank tgt = true ->
  convertTime L src tgt time st =
    (Threw (conversion_failure src tgt
       (lit "Source and target timezones are required and cannot be empty")),
     st).
Proof.
  intros H. unfold convertTime, try_catch, throw_if.
  change (negb (truthy_str (trim src))) with (is_blank src).
  change (negb (truthy_str (trim tgt))) with (is_blank tgt).
  assert (E : is_blank src || is_blank tgt = true).
  { destruct H as [H|H]; rewrite H; [reflexivity | apply orb_true_r]. }
  rewrite E. reflexivity.
Qed.

Ltac enter_convertTime Hs Ht :=
  unfold convertTime, try_catch, throw_if;
  change (negb (truthy_str (trim ?x))) with (is_blank x);
  rewrite Hs, Ht; cbn [orb];
  unfold bind at 1; rewrite resolve_instant.

Lemma convertTime_invalid_instant src tgt time st :
  is_blank src = false -> is_blank tgt = false ->
  isValid L (shared_instant L time (clock st (ticks st))) = false ->
  convertTime L src tgt time st =
    (Threw (conversion_failure src tgt
       (lit "Invalid time value provided: " ++ template_opt time)),
     after st (shared_instant_reads time)
       [shared_instant_call time; Call_isValid]).
Proof.
  intros Hs Ht Hi. enter_convertTime Hs Ht.
  run_monad. rewrite Hi. cbn. rewrite <- app_assoc. reflexivity.
Qed.

Lemma convertTime_success src tgt time st s g :
  let i := shared_instant L time (clock st (ticks st)) in
  is_blank src = false -> is_blank tgt = false ->
  isValid L i = true ->
  tz L i src = Returned s -> tz L i tgt = Returned g ->
  isValid L s = true -> isValid L g = true ->
  convertTime L src tgt time st =
    (Returned {| sourceTime := format L s formatString;
                 targetTime := format L g formatString;
                 timeDiff :=
                   formatTimeDifference (utcOffset L g - utcOffset L s) |},
     after st (shared_instant_reads time)
       [shared_instant_call time; Call_isValid; Call_tz src; Call_tz tgt;
        Call_isValid; Call_isValid; Call_utcOffset; Call_utcOffset;
        Call_format formatString; Call_format formatString]).
Proof.
  intros i Hs Ht Hi Hzs Hzg Hvs Hvg. enter_convertTime Hs Ht.
  run_monad. fold i. rewrite Hi. cbn. rewrite Hzs, Hzg, Hvs. cbn.
  rewrite Hvg. cbn. repeat rewrite <- app_assoc. reflexivity.
Qed.

Lemma convertTime_source_zone_throws src tgt time st e :
  let i := shared_instant L time (clock st (ticks st)) in
  is_blank src = false -> is_blank tgt = false ->
  isValid L i = true ->
  tz L i src = Threw e ->
  convertTime L src tgt time st =
    (Threw (rethrown src tgt e),
     after st (shared_instant_reads time)
       [shared_instant_call time; Call_isValid; Call_tz src]).
Proof.
  intros i Hs Ht Hi Hzs. enter_convertTime Hs Ht.
  run_monad. fold i. rewrite Hi. cbn. rewrite Hzs. cbn.
  repeat rewrite <- app_assoc. destruct e; reflexivity.
Qed.

Lemma convertTime_target_zone_throws src tgt time st s e :
  let i := shared_instant L time (clock st (ticks st)) in
  is_blank src = false -> is_blank tgt = false ->
  isValid L i = true ->
  tz L i src = Returned s -> tz L i tgt = Threw e ->
  convertTime L src tgt time st =
    (Threw (rethrown src tgt e),
     after st (shared_instant_reads time)
       [shared_instant_call time; Call_isValid; Call_tz src; Call_tz tgt]).
Proof.
  intros i Hs Ht Hi Hzs Hzg. enter_convertTime Hs Ht.
  run_monad. fold i. rewrite Hi. cbn. rewrite Hzs, Hzg. cbn.
  repeat rewrite <- app_assoc. destruct e; reflexivity.
Qed.

Lemma convertTime_invalid_conversion src tgt time st s g :
  let i := shared_instant L time (clock st (ticks st)) in
  is_blank src = false -> is_blank tgt = false ->
  isValid L i = true ->
  tz L i src = Returned s -> tz L i tgt = Returned g ->
  isValid L s && isValid L g = false ->
  convertTime L src tgt time st =
    (Threw (conversion_failure src tgt (lit "Invalid timezone conversion")),
     after st (shared_instant_reads time)
       ([shared_instant_call time; Call_isValid; Call_tz src; Call_tz tgt;
         Call_isValid] ++ (if isValid L s then [Call_isValid] else []))).
Proof.
  intros i Hs Ht Hi Hzs Hzg Hv. enter_convertTime Hs Ht.
  run_monad. fold i. rewrite Hi. cbn. rewrite Hzs, Hzg. cbn.
  destruct (isValid L s); cbn in Hv |- *.
  - rewrite Hv. cbn. repeat rewrite <- app_assoc. reflexivity.
  - repeat rewrite <- app_assoc. reflexivity.
Qed.

Ltac settle :=
  cbn [fst snd ticks after];
  split; [reflexivity | rewrite ?Nat.add_0_r; reflexivity].

(** With an instant string that is given and not blank, the outcome of
    [convertTime] is a function of its three arguments: the state it runs
    in has no part in it, and the clock is not read. *)
Lemma convertTime_explicit_run src tgt t :
  is_blank t = false ->
  exists o, forall st,
    fst (convertTime L src tgt (Some t) st) = o /\
    ticks (snd (convertTime L src tgt (Some t) st)) = ticks st.
Proof.
  intros Hb.
  destruct (is_blank src) eqn:Hs.
  { eexists. intros st. rewrite convertTime_blank_zone by (left; exact Hs).
    settle. }
  destruct (is_blank tgt) eqn:Ht.
  { eexists. intros st. rewrite convertTime_blank_zone by (right; exact Ht).
    settle. }
  assert (Hi : forall now, shared_instant L (Some t) now = dayjs_utc_parse L t)
    by (intros now; unfold shared_instant; rewrite Hb; reflexivity).
  assert (Hr : shared_instant_reads (Some t) = 0%nat)
    by (unfold shared_instant_reads; rewrite Hb; reflexivity).
  destruct (isValid L (dayjs_utc_parse L t)) eqn:Hv.
  2:{ eexists. intros st.
      rewrite convertTime_invalid_instant by (rewrite ?Hi; assumption).
      rewrite Hr. settle. }
  destruct (tz L (dayjs_utc_parse L t) src) as [s|e] eqn:Hzs.
  2:{ eexists. intros st.
      rewrite (convertTime_source_zone_throws src tgt (Some t) st e)
        by (rewrite ?Hi; assumption).
      rewrite Hr. settle. }
  destruct (tz L (dayjs_utc_parse L t) tgt) as [g|e] eqn:Hzg.
  2:{ eexists. intros st.
      rewrite (convertTime_target_zone_throws src tgt (Some t) st s e)
        by (rewrite ?Hi; assumption).
      rewrite Hr. settle. }
  destruct (isValid L s && isValid L g) eqn:Hvv.
  2:{ eexists. intros st.
      rewrite (convertTime_invalid_conversion src tgt (Some t) st s g)
        by (rewrite ?Hi; assumption).
      rewrite Hr. settle. }
  apply andb_true_iff in Hvv as [Hvs Hvg].
  eexists. intros st.
  rewrite (convertTime_success src tgt (Some t) st s g)
    by (rewrite ?Hi; assumption).
  rewrite Hr. settle.
Qed.

End ConvertTime.

Section ConvertTimeClaims.

Import Fixture.

(** C1 (as stated) fails: with the empty string given as the instant, the
    call succeeds on the reading of the clock; what it reports is not the
    pair of views of the given string parsed as UTC, which is no valid
    instant at all. *)
Lemma convertTime_given_blank_is_not_parsed :
  fst (convertTime lib kolkata kathmandu (Some (empty)) (world midnight 1)) =
    Returned {| sourceTime := lit "2025-10-17 05:30:00";
                targetTime := lit "2025-10-17 05:45:00";
                timeDiff := lit "+0 hours 15 minutes" |} /\
  ticks (snd (convertTime lib kolkata kathmandu (Some (empty))
                (world midnight 1))) = 1%nat /\
  isValid lib (spec_instant lib (Some (empty)) midnight) = false /\
  spec_conversion lib (spec_instant lib (Some (empty)) midnight)
      kolkata kathmandu <>
    Some {| sourceTime := lit "2025-10-17 05:30:00";
            targetTime := lit "2025-10-17 05:45:00";
            timeDiff := lit "+0 hours 15 minutes" |}.
Proof.
  split; [vm_compute; reflexivity|].
  split; [vm_compute; reflexivity|].
  split; [vm_compute; reflexivity|].
  vm_compute. discriminate.
Qed.

(** C1 (amended). For every call to [convertTime] that gets past its
    checks, one instant is resolved by one constructor call (the string
    parsed as UTC when it is given and not blank, otherwise the reading of
    the clock, read once), both reported times are views of that instant,
    and the reported difference renders the target offset minus the source
    offset, which is positive exactly when the target offset exceeds the
    source offset and is rendered with a minus sign exactly when it is
    below it. *)
Theorem convertTime_shares_one_instant (L : Dayjs) src tgt time st s g :
  let i := shared_instant L time (clock st (ticks st)) in
  let r := {| sourceTime := format L s formatString;
              targetTime := format L g formatString;
              timeDiff :=
                formatTimeDifference (utcOffset L g - utcOffset L s) |} in
  is_blank src = false -> is_blank tgt = false ->
  isValid L i = true ->
  tz L i src = Returned s -> tz L i tgt = Returned g ->
  isValid L s = true -> isValid L g = true ->
  convertTime L src tgt time st =
    (Returned r,
     after st (shared_instant_reads time)
       [shared_instant_call time; Call_isValid; Call_tz src; Call_tz tgt;
        Call_isValid; Call_isValid; Call_utcOffset; Call_utcOffset;
        Call_format formatString; Call_format formatString]) /\
  spec_conversion L i src tgt = Some r /\
  (shared_instant_reads time <= 1)%nat /\
  (0 < utcOffset L g - utcOffset L s <-> utcOffset L s < utcOffset L g) /\
  ((exists rest, timeDiff r = 45%N :: rest) <->
   utcOffset L g < utcOffset L s).
Proof.
  intros i r Hs Ht Hi Hzs Hzg Hvs Hvg.
  split; [apply convertTime_success; assumption|].
  split; [unfold spec_conversion; fold i; rewrite Hzs, Hzg; reflexivity|].
  split; [destruct time as [t|]; cbn; [destruct (is_blank t)|]; lia|].
  split; [lia|].
  cbn [timeDiff r].
  destruct (formatTimeDifference_sign (utcOffset L g - utcOffset L s))
    as [rest E].
  rewrite E. destruct (Z.ltb_spec (utcOffset L g - utcOffset L s) 0).
  - split; [lia | intros _; eexists; reflexivity].
  - split; [intros [x X]; discriminate X | lia].
Qed.

Lemma convertTime_shares_one_instant_witness :
  convertTime lib kolkata kathmandu (Some (lit "2025-10-17T12:00:00"))
      (world 0 1) =
    (Returned {| sourceTime := lit "2025-10-17 17:30:00";
                 targetTime := lit "2025-10-17 17:45:00";
                 timeDiff := lit "+0 hours 15 minutes" |},
     after (world 0 1) 0
       [Call_dayjs_utc (Some (lit "2025-10-17T12:00:00")); Call_isValid;
        Call_tz kolkata; Call_tz kathmandu;
        Call_isValid; Call_isValid; Call_utcOffset; Call_utcOffset;
        Call_format formatString; Call_format formatString]).
Proof.
  apply (convertTime_shares_one_instant lib kolkata kathmandu
           (Some (lit "2025-10-17T12:00:00")) (world 0 1)
           {| epoch := Some 1760702400000; offset := 330 |}
           {| epoch := Some 1760702400000; offset := 345 |});
    vm_compute; reflexivity.
Defined.

(** C3 (as stated) fails: a whitespace-only instant string raises no
    error; the conversion succeeds on the reading of the clock, and the
    handler answers with a success envelope. *)
Lemma convertTime_blank_instant_raises_nothing :
  fst (convertTime lib kolkata kathmandu (Some (lit "   "))
         (world midnight 1)) =
    Returned {| sourceTime := lit "2025-10-17 05:30:00";
                targetTime := lit "2025-10-17 05:45:00";
                timeDiff := lit "+0 hours 15 minutes" |} /\
  fst (callToolHandler lib (lit "convert_time")
         (object [(lit "sourceTimezone", JString kolkata);
                  (lit "targetTimezone", JString kathmandu);
                  (lit "time", JString (lit "   "))])
         (world midnight 1)) =
    Returned (text_result true (lit
      "The current time in Asia/Kolkata is 2025-10-17 05:30:00, and in Asia/Kathmandu is 2025-10-17 05:45:00. Time difference: +0 hours 15 minutes.")).
Proof. split; vm_compute; reflexivity. Qed.

Lemma convertTime_blank_as_absent (L : Dayjs) src tgt t st :
  is_blank t = true ->
  isValid L (dayjs_utc_now L (clock st (ticks st))) = true ->
  convertTime L src tgt (Some t) st = convertTime L src tgt None st.
Proof.
  intros Hb Hn.
  destruct (is_blank src) eqn:Hs.
  { rewrite !convertTime_blank_zone by (left; exact Hs). reflexivity. }
  destruct (is_blank tgt) eqn:Ht.
  { rewrite !convertTime_blank_zone by (right; exact Ht). reflexivity. }
  assert (Hi : shared_instant L (Some t) (clock st (ticks st)) =
               dayjs_utc_now L (clock st (ticks st)))
    by (unfold shared_instant; rewrite Hb; reflexivity).
  assert (Hr : shared_instant_reads (Some t) = shared_instant_reads None)
    by (unfold shared_instant_reads; rewrite Hb; reflexivity).
  assert (Hc : shared_instant_call (Some t) = shared_instant_call None)
    by (unfold shared_instant_call; rewrite Hb; reflexivity).
  destruct (tz L (dayjs_utc_now L (clock st (ticks st))) src) as [s|e] eqn:Hzs.
  2:{ rewrite (convertTime_source_zone_throws L src tgt (Some t) st e)
        by (rewrite ?Hi; assumption).
      rewrite (convertTime_source_zone_throws L src tgt None st e)
        by assumption.
      rewrite Hr, Hc. reflexivity. }
  destruct (tz L (dayjs_utc_now L (clock st (ticks st))) tgt) as [g|e] eqn:Hzg.
  2:{ rewrite (convertTime_target_zone_throws L src tgt (Some t) st s e)
        by (rewrite ?Hi; assumption).
      rewrite (convertTime_target_zone_throws L src tgt None st s e)
        by assumption.
      rewrite Hr, Hc. reflexivity. }
  destruct (isValid L s && isValid L g) eqn:Hvv.
  2:{ rewrite (convertTime_invalid_conversion L src tgt (Some t) st s g)
        by (rewrite ?Hi; assumption).
      rewrite (convertTime_invalid_conversion L src tgt None st s g)
        by assumption.
      rewrite Hr, Hc. reflexivity. }
  apply andb_true_iff in Hvv as [Hvs Hvg].
  rewrite (convertTime_success L src tgt (Some t) st s g)
    by (rewrite ?Hi; assumption).
  rewrite (convertTime_success L src tgt None st s g) by assumption.
  rewrite Hr, Hc. reflexivity.
Qed.

(** C3 (amended). For every call to [convertTime] with zones that are not
    blank: an empty or whitespace-only instant string is treated as absent,
    the call being the call without instant (it works from the reading of
    the clock and raises no error for the string); an instant string that
    is not blank and does not parse is rejected with an error naming both
    zones and the cause, after the parse and the validity check only: no
    zone conversion, no offset and no formatting is asked of the library. *)
Theorem convertTime_instant_policy (L : Dayjs) src tgt t st :
  is_blank src = false -> is_blank tgt = false ->
  (is_blank t = true ->
   isValid L (dayjs_utc_now L (clock st (ticks st))) = true ->
   convertTime L src tgt (Some t) st = convertTime L src tgt None st) /\
  (is_blank t = false ->
   isValid L (dayjs_utc_parse L t) = false ->
   convertTime L src tgt (Some t) st =
     (Threw (ErrorObj
        (lit "Failed to convert time from " ++ src ++ lit " to " ++ tgt
           ++ lit ": " ++ lit "Invalid time value provided: " ++ t)),
      after st 0 [Call_dayjs_utc (Some t); Call_isValid]) /\
   existsb is_conversion_call [Call_dayjs_utc (Some t); Call_isValid]
     = false).
Proof.
  intros Hs Ht. split.
  - apply convertTime_blank_as_absent.
  - intros Hb Hv. split; [|reflexivity].
    rewrite convertTime_invalid_instant;
      unfold shared_instant, shared_instant_reads, shared_instant_call;
      rewrite ?Hb; try assumption.
    reflexivity.
Qed.

Lemma convertTime_instant_policy_witness :
  convertTime lib kolkata kathmandu (Some (lit " ")) (world midnight 1) =
    convertTime lib kolkata kathmandu None (world midnight 1) /\
  convertTime lib kolkata kathmandu (Some (lit "tomorrow")) (world midnight 1) =
    (Threw (ErrorObj (lit
       "Failed to convert time from Asia/Kolkata to Asia/Kathmandu: Invalid time value provided: tomorrow")),
     after (world midnight 1) 0
       [Call_dayjs_utc (Some (lit "tomorrow")); Call_isValid]).
Proof.
  pose proof (convertTime_instant_policy lib kolkata kathmandu (lit " ")
                (world midnight 1) eq_refl eq_refl) as [A _].
  pose proof (convertTime_instant_policy lib kolkata kathmandu (lit "tomorrow")
                (world midnight 1) eq_refl eq_refl) as [_ B].
  split.
  - apply A; reflexivity.
  - apply B; reflexivity.
Defined.

(** C9 (as stated) fails: with the empty string supplied as the instant,
    the same call made at two readings of the clock reports two different
    pairs of times. *)
Lemma convertTime_blank_instant_follows_clock :
  fst (convertTime lib utc_zone kolkata (Some (empty)) (world 0 1)) =
    Returned {| sourceTime := lit "1970-01-01 00:00:00";
                targetTime := lit "1970-01-01 05:30:00";
                timeDiff := lit "+5 hours 30 minutes" |} /\
  fst (convertTime lib utc_zone kolkata (Some (empty)) (world midnight 1)) =
    Returned {| sourceTime := lit "2025-10-17 00:00:00";
                targetTime := lit "2025-10-17 05:30:00";
                timeDiff := lit "+5 hours 30 minutes" |} /\
  fst (convertTime lib utc_zone kolkata (Some (empty)) (world 0 1)) <>
  fst (convertTime lib utc_zone kolkata (Some (empty)) (world midnight 1)).
Proof.
  split; [vm_compute; reflexivity|].
  split; [vm_compute; reflexivity|].
  vm_compute. discriminate.
Qed.

(** C9 (amended). For every zone pair and every supplied instant string
    that is not empty or whitespace-only, two calls with identical
    arguments have identical outcomes (the same three strings, or the same
    error), whatever the states they run in, and neither reads the clock. *)
Theorem convertTime_explicit_deterministic (L : Dayjs) src tgt t st1 st2 :
  is_blank t = false ->
  fst (convertTime L src tgt (Some t) st1) =
  fst (convertTime L src tgt (Some t) st2) /\
  ticks (snd (convertTime L src tgt (Some t) st1)) = ticks st1 /\
  ticks (snd (convertTime L src tgt (Some t) st2)) = ticks st2.
Proof.
  intros Hb.
  destruct (convertTime_explicit_run L src tgt t Hb) as [o H].
  destruct (H st1) as [A1 B1]. destruct (H st2) as [A2 B2].
  rewrite A1, A2. repeat split; assumption.
Qed.

Lemma convertTime_explicit_deterministic_witness :
  fst (convertTime lib kolkata kathmandu (Some (lit "2025-10-17T12:00:00"))
         (world 0 1)) =
  fst (convertTime lib kolkata kathmandu (Some (lit "2025-10-17T12:00:00"))
         (world midnight 7)).
Proof.
  apply (convertTime_explicit_deterministic lib kolkata kathmandu
           (lit "2025-10-17T12:00:00") (world 0 1) (world midnight 7)).
  vm_compute. reflexivity.
Defined.

(** C10. The rendered difference starts with '+' for every difference that
    is not negative and with '-' only for a negative one; 0 minutes render
    as "+0 hours", which is what [convertTime] reports for two zones with
    equal offsets at the shared instant; the hours component is 0 under
    either sign for a difference of less than an hour. *)
Theorem rendered_sign_follows_difference :
  (forall m : Z, exists rest,
      formatTimeDifference m = (if 0 <=? m then 43%N else 45%N) :: rest) /\
  formatTimeDifference 0 = lit "+0 hours" /\
  formatTimeDifference 15 = lit "+0 hours 15 minutes" /\
  formatTimeDifference (-15) = lit "-0 hours 15 minutes" /\
  (forall m : Z, 0 < Z.abs m < 60 ->
     formatTimeDifference m =
       (if m <? 0 then lit "-" else lit "+") ++ lit "0 hours "
         ++ spec_unit (Z.abs m) "minute") /\
  (forall (L : Dayjs) src tgt time st s g,
     let i := shared_instant L time (clock st (ticks st)) in
     is_blank src = false -> is_blank tgt = false ->
     isValid L i = true ->
     tz L i src = Returned s -> tz L i tgt = Returned g ->
     isValid L s = true -> isValid L g = true ->
     utcOffset L s = utcOffset L g ->
     exists r st',
       convertTime L src tgt time st = (Returned r, st') /\
       timeDiff r = lit "+0 hours").
Proof.
  split.
  { intros m. destruct (formatTimeDifference_sign m) as [rest E].
    exists rest. rewrite E.
    destruct (Z.ltb_spec m 0), (Z.leb_spec 0 m); try lia; reflexivity. }
  split; [reflexivity|]. split; [reflexivity|]. split; [reflexivity|].
  split; [exact formatTimeDifference_zero_hours|].
  intros L src tgt time st s g i Hs Ht Hi Hzs Hzg Hvs Hvg Heq.
  eexists. eexists. split.
  - apply convertTime_success; eassumption.
  - cbn [timeDiff]. rewrite Heq, Z.sub_diag. reflexivity.
Qed.

Lemma rendered_sign_follows_difference_witness :
  formatTimeDifference 45 = lit "+0 hours 45 minutes" /\
  exists r st',
    convertTime lib kolkata colombo None (world midnight 1)
      = (Returned r, st') /\
    timeDiff r = lit "+0 hours".
Proof.
  destruct rendered_sign_follows_difference as (_ & _ & _ & _ & A & B).
  split.
  - apply (A 45). vm_compute. split; reflexivity.
  - apply (B lib kolkata colombo None (world midnight 1)
             {| epoch := Some midnight; offset := 330 |}
             {| epoch := Some midnight; offset := 330 |});
      vm_compute; reflexivity.
Defined.

End ConvertTimeClaims.

(* ===================================================================== *)
(** * The request handler *)
(* ===================================================================== *)

Section HandlerFacts.

Context (L : Dayjs).

Lemma switch_name_tool (t : Tool) : switch_name (tool_name t) = Some t.
Proof. destruct t; vm_compute; reflexivity. Qed.

Lemma switch_name_Some (name : jsstring) (t : Tool) :
  switch_name name = Some t -> name = tool_name t.
Proof.
  unfold switch_name, str_eqb.
  repeat case_bool_decide; intros E; inversion E; subst; reflexivity.
Qed.

Lemma switch_name_None (name : jsstring) :
  switch_name name = None <-> forall t, name <> tool_name t.
Proof.
  split.
  - intros E t ->. rewrite switch_name_tool in E. discriminate E.
  - intros H. destruct (switch_name name) as [t|] eqn:E; [|reflexivity].
    apply switch_name_Some in E. destruct (H t E).
Qed.

(** When the validator of a tool refuses the arguments, the handler answers
    with the failure envelope naming the tool, and the state is untouched:
    the clock has not been read and the library has not been called. *)
Lemma handler_invalid_arguments (t : Tool) (args : JsValue) (st : State) :
  check_args t args = false ->
  callToolHandler L (tool_name t) args st =
    (Returned (text_result false
       (lit "Invalid arguments for tool: [" ++ tool_name t ++ lit "]")),
     st).
Proof.
  intros H. unfold callToolHandler, callToolBody, try_catch.
  rewrite switch_name_tool.
  destruct t; cbn [check_args] in H; rewrite H; reflexivity.
Qed.

Lemma handler_unknown_tool (name : jsstring) (args : JsValue) (st : State) :
  switch_name name = None ->
  callToolHandler L name args st =
    (Returned (text_result false (lit "Unknown tool: " ++ name)), st).
Proof.
  intros H. unfold callToolHandler, callToolBody, try_catch.
  rewrite H. reflexivity.
Qed.

Ltac unfold_validators :=
  unfold checkCurrentTimeArgs, checkRelativeTimeArgs, checkDaysInMonthArgs,
    checkTimestampArgs, checkConvertTimeArgs, checkWeekOfYearArgs,
    has_member, member.

(** What validation establishes, and the narrowing of the handler relies
    on: the required arguments of the code are strings. *)
Lemma checked_required (args : JsValue) :
  (checkCurrentTimeArgs args = true -> is_string (member args (lit "format"))) /\
  (checkRelativeTimeArgs args = true -> is_string (member args (lit "time"))) /\
  (checkDaysInMonthArgs args = true -> is_string (member args (lit "date"))) /\
  (checkConvertTimeArgs args = true ->
     is_string (member args (lit "sourceTimezone")) /\
     is_string (member args (lit "targetTimezone"))).
Proof.
  unfold is_string. unfold_validators.
  destruct args as [[| b | n | x | xs | m]|]; cbn;
    repeat split; try discriminate.
  - destruct (m !! lit "format") as [[]|]; cbn; try discriminate; eauto.
  - destruct (m !! lit "time") as [[]|]; cbn; try discriminate; eauto.
  - destruct (m !! lit "date") as [[]|]; cbn; try discriminate; eauto.
  - destruct (m !! lit "sourceTimezone") as [[]|]; cbn; try discriminate; eauto.
  - destruct (m !! lit "sourceTimezone") as [[]|]; cbn; try discriminate;
      destruct (m !! lit "targetTimezone") as [[]|]; cbn; try discriminate;
      eauto.
Qed.

(** The optional arguments are strings or absent. *)
Lemma checked_optional (args : JsValue) :
  (checkCurrentTimeArgs args = true ->
     at_most_string (member args (lit "timezone"))) /\
  (checkTimestampArgs args = true -> at_most_string (member args (lit "time"))) /\
  (checkConvertTimeArgs args = true ->
     at_most_string (member args (lit "time"))) /\
  (checkWeekOfYearArgs args = true -> at_most_string (member args (lit "date"))).
Proof.
  unfold at_most_string, is_string, undefined. unfold_validators.
  destruct args as [[| b | n | x | xs | m]|]; cbn;
    repeat split; try discriminate; try (intros _; left; reflexivity).
  - destruct (m !! lit "format") as [[]|]; cbn; try discriminate;
      destruct (m !! lit "timezone") as [[]|]; cbn; try discriminate; eauto.
  - destruct (m !! lit "time") as [[]|]; cbn; try discriminate; eauto.
  - destruct (m !! lit "sourceTimezone") as [[]|]; cbn; try discriminate;
      destruct (m !! lit "targetTimezone") as [[]|]; cbn; try discriminate;
      destruct (m !! lit "time") as [[]|]; cbn; try discriminate; eauto.
  - destruct (m !! lit "date") as [[]|]; cbn; try discriminate; eauto.
Qed.

(** Arguments that are malformed in the sense of the specification are
    refused by the validator of the tool. *)
Lemma malformed_refused (t : Tool) (args : JsValue) :
  spec_malformed t args = true -> check_args t args = false.
Proof.
  unfold spec_malformed, spec_missing, spec_wrong_type.
  destruct t; cbn [check_args spec_required spec_optional existsb app];
    unfold checkCurrentTimeArgs, checkRelativeTimeArgs, checkDaysInMonthArgs,
      checkTimestampArgs, checkConvertTimeArgs, checkWeekOfYearArgs,
      has_member, member;
    destruct args as [[| b | n | x | xs | m]|]; cbn;
    try discriminate; try reflexivity.
  - destruct (m !! lit "format") as [[]|], (m !! lit "timezone") as [[]|];
      cbn; try discriminate; reflexivity.
  - destruct (m !! lit "time") as [[]|]; cbn; try discriminate; reflexivity.
  - destruct (m !! lit "date") as [[]|]; cbn; try discriminate; reflexivity.
  - destruct (m !! lit "time") as [[]|]; cbn; try discriminate; reflexivity.
  - destruct (m !! lit "sourceTimezone") as [[]|],
      (m !! lit "targetTimezone") as [[]|], (m !! lit "time") as [[]|];
      cbn; try discriminate; reflexivity.
  - destruct (m !! lit "date") as [[]|]; cbn; try discriminate; reflexivity.
Qed.

End HandlerFacts.

Section TryBlock.

Context (L : Dayjs).

Lemma returns_success_ret (message : jsstring) :
  returns_success (ret (text_result true message)).
Proof.
  intros st r st' E. unfold ret in E. injection E as <- _.
  exists message. reflexivity.
Qed.

Lemma returns_success_throw (e : thrown) : returns_success (throw e).
Proof. intros st r st' E. discriminate E. Qed.

Lemma returns_success_bind {A} (m : M A) (k : A -> M CallToolResult) :
  (forall a, returns_success (k a)) -> returns_success (bind m k).
Proof.
  intros H st r st' E. unfold bind in E.
  destruct (m st) as [[a|e] st0].
  - exact (H a st0 r st' E).
  - discriminate E.
Qed.

Lemma returns_success_throw_if (c : bool) (e : thrown) (k : M CallToolResult) :
  returns_success k -> returns_success (throw_if c e k).
Proof.
  intros H. unfold throw_if. destruct c; [apply returns_success_throw | exact H].
Qed.

(** Whatever the [try] block returns is a success envelope with one text. *)
Lemma callToolBody_returns_success (name : jsstring) (args : JsValue) :
  returns_success (callToolBody L name args).
Proof.
  unfold callToolBody.
  destruct (switch_name name) as [[]|]; cbv zeta;
    repeat first
      [ apply returns_success_throw_if
      | apply returns_success_ret
      | apply returns_success_throw
      | apply returns_success_bind; intros ? ].
Qed.

End TryBlock.

Section Calculations.

Context (L : Dayjs).

(** Without a time, [getTimestamp] is the reading of the clock as the
    library's [valueOf] gives it back. *)
Lemma getTimestamp_now (st : State) :
  getTimestamp L None st =
    (Returned (valueOf L (dayjs_now L (clock st (ticks st)))),
     after st 1 [Call_dayjs None; Call_valueOf]).
Proof.
  unfold getTimestamp. cbn [truthy_opt]. run_monad.
  rewrite Nat.add_1_r, <- app_assoc. reflexivity.
Qed.


(** Without a date, [getDaysInMonth] counts the days of the month the
    clock is in. *)
Lemma getDaysInMonth_now (st : State) :
  getDaysInMonth L None st =
    (Returned (daysInMonth L (dayjs_now L (clock st (ticks st)))),
     after st 1 [Call_dayjs None; Call_daysInMonth]).
Proof.
  unfold getDaysInMonth. cbn [truthy_opt]. run_monad.
  rewrite Nat.add_1_r, <- app_assoc. reflexivity.
Qed.

End Calculations.

Section FixtureRuns.

Import Fixture.

Example getTimestamp_2025_10_17 :
  fst (getTimestamp lib (Some (lit "2025-10-17T00:00:00")) (world 0 1)) =
    Returned (Num 1760659200000).
Proof. vm_compute. reflexivity. Qed.

Example get_timestamp_2025_10_17 :
  fst (callToolHandler lib (lit "get_timestamp")
         (object [(lit "time", JString (lit "2025-10-17T00:00:00"))])
         (world 0 1)) =
    Returned (text_result true (lit
      "The timestamp of 2025-10-17T00:00:00 (parsed as UTC) is 1760659200000 ms.")).
Proof. vm_compute. reflexivity. Qed.

Example get_timestamp_now :
  fst (callToolHandler lib (lit "get_timestamp") (object [])
         (world midnight 1)) =
    Returned (text_result true (lit
      "The current timestamp is 1760659200000 ms.")).
Proof. vm_compute. reflexivity. Qed.

Example days_in_month_february :
  fst (callToolHandler lib (lit "days_in_month")
         (object [(lit "date", JString (lit "2025-02-01"))]) (world 0 1)) =
    Returned (text_result true (lit "The number of days in month is 28.")) /\
  fst (callToolHandler lib (lit "days_in_month")
         (object [(lit "date", JString (lit "2024-02-01"))]) (world 0 1)) =
    Returned (text_result true (lit "The number of days in month is 29.")).
Proof. split; vm_compute; reflexivity. Qed.

Example convert_time_kolkata_kathmandu :
  fst (callToolHandler lib (lit "convert_time")
         (object [(lit "sourceTimezone", JString kolkata);
                  (lit "targetTimezone", JString kathmandu);
                  (lit "time", JString (lit "2025-10-17T12:00:00"))])
         (world 0 1)) =
    Returned (text_result true (lit
      "At 2025-10-17T12:00:00, the time in Asia/Kolkata is 2025-10-17 17:30:00, and in Asia/Kathmandu is 2025-10-17 17:45:00. Time difference: +0 hours 15 minutes.")).
Proof. vm_compute. reflexivity. Qed.

End FixtureRuns.

Section HandlerClaims.

Import Fixture.

(** C6. For each of the six tools and every argument value that is
    malformed for it (a required argument missing, or an argument that is
    not a string), the handler answers success=false with the message
    "Invalid arguments for tool: [name]"; for every name that is none of
    the six it answers success=false with "Unknown tool: name"; in both
    cases the state is the one the call started in: the clock has not been
    read and nothing has been asked of the library. *)
Theorem handler_rejects_before_computing (L : Dayjs) (args : JsValue)
    (st : State) :
  (forall t : Tool,
     spec_malformed t args = true ->
     callToolHandler L (tool_name t) args st =
       (Returned (text_result false
          (lit "Invalid arguments for tool: [" ++ tool_name t ++ lit "]")),
        st)) /\
  (forall name : jsstring,
     (forall t : Tool, name <> tool_name t) ->
     callToolHandler L name args st =
       (Returned (text_result false (lit "Unknown tool: " ++ name)), st)).
Proof.
  split.
  - intros t H. apply handler_invalid_arguments, malformed_refused, H.
  - intros name H. apply handler_unknown_tool, switch_name_None, H.
Qed.

Lemma handler_rejects_before_computing_witness :
  fst (callToolHandler lib (lit "convert_time")
         (object [(lit "sourceTimezone", JString kolkata);
                  (lit "targetTimezone", JNumber (Num 5))])
         (world midnight 1)) =
    Returned (text_result false
                (lit "Invalid arguments for tool: [convert_time]")) /\
  fst (callToolHandler lib (lit "current_date") (object [])
         (world midnight 1)) =
    Returned (text_result false (lit "Unknown tool: current_date")).
Proof.
  destruct (handler_rejects_before_computing lib
              (object [(lit "sourceTimezone", JString kolkata);
                       (lit "targetTimezone", JNumber (Num 5))])
              (world midnight 1)) as [A _].
  destruct (handler_rejects_before_computing lib (object [])
              (world midnight 1)) as [_ B].
  split.
  - change (lit "convert_time") with (tool_name convert_time).
    rewrite (A convert_time); [reflexivity | vm_compute; reflexivity].
  - rewrite (B (lit "current_date")); [reflexivity|].
    intros t; destruct t; vm_compute; discriminate.
Defined.

(** C7. For every name and every argument value the handler returns, and
    returns exactly one envelope with one text: the envelope of the [try]
    block, with success=true, when the block returns, and otherwise the
    failure envelope made of the message of whatever the block threw,
    during validation or during computation. Nothing thrown leaves the
    handler. *)
Theorem handler_yields_one_result (L : Dayjs) (name : jsstring)
    (args : JsValue) (st : State) :
  exists r st',
    callToolHandler L name args st = (Returned r, st') /\
    (exists message, r = text_result (success r) message) /\
    match callToolBody L name args st with
    | (Returned r0, st0) => r = r0 /\ st' = st0 /\ success r = true
    | (Threw e, st0) =>
        r = text_result false (error_message e) /\ st' = st0
    end.
Proof.
  unfold callToolHandler, try_catch.
  pose proof (callToolBody_returns_success L name args st) as H.
  destruct (callToolBody L name args st) as [[r0|e] st0].
  - destruct (H r0 st0 eq_refl) as [message ->].
    exists (text_result true message), st0.
    split; [reflexivity|]. split; [exists message; reflexivity|].
    repeat split.
  - exists (text_result false (error_message e)), st0.
    split; [reflexivity|]. split; [eexists; reflexivity|].
    split; reflexivity.
Qed.

(** C4. For every call of convert_time whose arguments pass validation
    and in which the source or the target zone is empty or whitespace-only,
    the handler answers success=false with an error message that names both
    zone arguments as they were given; the clock has not been read and the
    library has not been called. *)
Theorem convert_time_blank_zone_fails (L : Dayjs)
    (m : gmap jsstring Json) (src tgt : jsstring) (st : State) :
  m !! lit "sourceTimezone" = Some (JString src) ->
  m !! lit "targetTimezone" = Some (JString tgt) ->
  (m !! lit "time" = None \/ exists t, m !! lit "time" = Some (JString t)) ->
  is_blank src = true \/ is_blank tgt = true ->
  callToolHandler L (lit "convert_time") (Some (JObject m)) st =
    (Returned (text_result false
       (lit "Failed to convert time from " ++ src ++ lit " to " ++ tgt
          ++ lit ": "
          ++ lit "Source and target timezones are required and cannot be empty")),
     st).
Proof.
  intros Hsrc Htgt Htime Hblank.
  unfold callToolHandler, callToolBody, try_catch.
  change (lit "convert_time") with (tool_name convert_time).
  rewrite switch_name_tool.
  assert (V : checkConvertTimeArgs (Some (JObject m)) = true).
  { unfold checkConvertTimeArgs, has_member, member. cbn [typeof is_null].
    rewrite Hsrc, Htgt.
    destruct Htime as [-> | [t ->]]; reflexivity. }
  rewrite V. unfold throw_if. cbn [negb member]. rewrite Hsrc, Htgt.
  cbn [as_string]. unfold bind.
  rewrite convertTime_blank_zone by exact Hblank. reflexivity.
Qed.

Lemma convert_time_blank_zone_fails_witness :
  callToolHandler lib (lit "convert_time")
    (object [(lit "sourceTimezone", JString (lit " "));
             (lit "targetTimezone", JString kathmandu)])
    (world midnight 1) =
  (Returned (text_result false
     (lit "Failed to convert time from " ++ lit " " ++ lit " to " ++ kathmandu
        ++ lit ": "
        ++ lit "Source and target timezones are required and cannot be empty")),
   world midnight 1).
Proof.
  apply (convert_time_blank_zone_fails lib).
  - vm_compute. reflexivity.
  - vm_compute. reflexivity.
  - left. vm_compute. reflexivity.
  - left. vm_compute. reflexivity.
Defined.

(** C5 fails on the code. A days_in_month call whose arguments have no
    date is refused by the validator, with the failure envelope for invalid
    arguments and before anything is computed; yet [getDaysInMonth] itself
    takes an optional date and counts the days of the current month
    without one, and the validator of get_week_year, whose date is
    optional in the same way, accepts the same arguments. *)
Theorem days_in_month_requires_date (L : Dayjs) (args : JsValue)
    (st : State) :
  has_member (lit "date") args = false ->
  callToolHandler L (lit "days_in_month") args st =
    (Returned (text_result false
       (lit "Invalid arguments for tool: [days_in_month]")), st) /\
  getDaysInMonth L None st =
    (Returned (daysInMonth L (dayjs_now L (clock st (ticks st)))),
     after st 1 [Call_dayjs None; Call_daysInMonth]) /\
  (checkWeekOfYearArgs args =
   TypeTag_eqb (typeof args) TObject && negb (is_null args)).
Proof.
  intros H. split; [|split].
  - change (lit "days_in_month") with (tool_name days_in_month).
    rewrite handler_invalid_arguments; [reflexivity|].
    cbn [check_args]. unfold checkDaysInMonthArgs. rewrite H.
    rewrite andb_false_r. reflexivity.
  - apply getDaysInMonth_now.
  - unfold checkWeekOfYearArgs. rewrite H. rewrite andb_true_r. reflexivity.
Qed.

Lemma days_in_month_requires_date_witness :
  callToolHandler lib (lit "days_in_month") (object []) (world midnight 1) =
    (Returned (text_result false
       (lit "Invalid arguments for tool: [days_in_month]")),
     world midnight 1) /\
  checkWeekOfYearArgs (object []) = true.
Proof.
  destruct (days_in_month_requires_date lib (object []) (world midnight 1))
    as (A & _ & B); [vm_compute; reflexivity|].
  split; [exact A | rewrite B; reflexivity].
Defined.

(** C8 fails on the code. A get_timestamp call that carries no arguments
    at all is accepted by the validator, and then fails on the read of
    [args.time]: the handler answers success=false with the message of the
    [TypeError] and never reads the clock. With an empty argument object
    the same call succeeds with the reading of the clock. *)
Theorem get_timestamp_without_arguments (L : Dayjs) (st : State) :
  checkTimestampArgs undefined = true /\
  callToolHandler L (lit "get_timestamp") undefined st =
    (Returned (text_result false
       (lit "Cannot read properties of undefined (reading 'time')")), st) /\
  callToolHandler L (lit "get_timestamp") (Some (JObject ∅)) st =
    (Returned (text_result true
       (lit "The current timestamp is "
          ++ Number_toString (valueOf L (dayjs_now L (clock st (ticks st))))
          ++ lit " ms.")),
     after st 1 [Call_dayjs None; Call_valueOf]).
Proof.
  split; [reflexivity|]. split.
  - reflexivity.
  - unfold callToolHandler, callToolBody, try_catch.
    change (lit "get_timestamp") with (tool_name get_timestamp).
    rewrite switch_name_tool.
    unfold checkTimestampArgs, read_member, has_member, member, throw_if.
    cbn [is_undefined is_null orb typeof TypeTag_eqb andb negb].
    rewrite lookup_empty. cbn [negb orb andb as_opt_string undefined].
    unfold bind at 1. unfold ret at 1. unfold bind at 1.
    rewrite getTimestamp_now. reflexivity.
Qed.

End HandlerClaims.

(* ===================================================================== *)
(** * The clock and the trace *)
(* ===================================================================== *)

Section Frames.

Context (L : Dayjs).























End Frames.

(* ===================================================================== *)
(** * The runs of [convertTime] *)
(* ===================================================================== *)

Section ConvertTimeRuns.

Context (L : Dayjs).

(** Every call of [convertTime] goes one of the six ways. *)
Lemma convertTime_run src tgt time st :
  ConvertTimeRun L src tgt time st (convertTime L src tgt time st).
Proof.
  destruct (is_blank src) eqn:Hs.
  { rewrite convertTime_blank_zone by (left; exact Hs).
    apply run_blank_zone. left. exact Hs. }
  destruct (is_blank tgt) eqn:Ht.
  { rewrite convertTime_blank_zone by (right; exact Ht).
    apply run_blank_zone. right. exact Ht. }
  destruct (isValid L (shared_instant L time (clock st (ticks st)))) eqn:Hv.
  2:{ rewrite convertTime_invalid_instant by assumption.
      eapply run_invalid_instant; eassumption. }
  destruct (tz L (shared_instant L time (clock st (ticks st))) src)
    as [s|e] eqn:Hzs.
  2:{ rewrite (convertTime_source_zone_throws L src tgt time st e)
        by assumption.
      eapply run_source_zone_throws; eassumption. }
  destruct (tz L (shared_instant L time (clock st (ticks st))) tgt)
    as [g|e] eqn:Hzg.
  2:{ rewrite (convertTime_target_zone_throws L src tgt time st s e)
        by assumption.
      eapply run_target_zone_throws; eassumption. }
  destruct (isValid L s && isValid L g) eqn:Hvv.
  2:{ rewrite (convertTime_invalid_conversion L src tgt time st s g)
        by assumption.
      eapply run_invalid_view; eassumption. }
  apply andb_true_iff in Hvv as [Hvs Hvg].
  rewrite (convertTime_success L src tgt time st s g) by assumption.
  eapply run_success; eassumption.
Qed.

(** X3. Whatever [convertTime] throws is an [Error] whose message starts
    with "Failed to convert time from <source> to <target>: "; the cause
    that follows is one of the three messages of the function itself, or
    the message of what the library threw on a zone ("Unknown error" when
    that was no [Error]). *)
Theorem convertTime_failures_are_wrapped src tgt time st :
  match fst (convertTime L src tgt time st) with
  | Returned _ => True
  | Threw e =>
      exists cause,
        e = ErrorObj (lit "Failed to convert time from " ++ src
                        ++ lit " to " ++ tgt ++ lit ": " ++ cause) /\
        (cause = lit
           "Source and target timezones are required and cannot be empty" \/
         cause = lit "Invalid time value provided: " ++ template_opt time \/
         cause = lit "Invalid timezone conversion" \/
         exists d zone e0,
           tz L d zone = Threw e0 /\ (zone = src \/ zone = tgt) /\
           cause = match e0 with
                   | ErrorObj m => m
                   | NonError _ => lit "Unknown error"
                   end)
  end.
Proof.
  destruct (convertTime_run src tgt time st); cbn [fst].
  - eexists. split; [reflexivity|]. left. reflexivity.
  - eexists. split; [reflexivity|]. right. left. reflexivity.
  - eexists. split; [reflexivity|]. right. right. right.
    exists (shared_instant L time (clock st (ticks st))), src, e.
    split; [assumption|]. split; [left|]; reflexivity.
  - eexists. split; [reflexivity|]. right. right. right.
    exists (shared_instant L time (clock st (ticks st))), tgt, e.
    split; [assumption|]. split; [right|]; reflexivity.
  - eexists. split; [reflexivity|]. right. right. left. reflexivity.
  - exact I.
Qed.

(** X5. [convertTime] reads the clock exactly when it has to: never when a
    zone is blank, never when the instant string is given and not blank,
    and exactly once otherwise, whatever the outcome. *)
Theorem convertTime_clock_reads src tgt time st :
  ticks (snd (convertTime L src tgt time st)) =
    if is_blank src || is_blank tgt then ticks st
    else match time with
         | Some t => if is_blank t then S (ticks st) else ticks st
         | None => S (ticks st)
         end.
Proof.
  assert (R : (ticks st + shared_instant_reads time)%nat =
              match time with
              | Some t => if is_blank t then S (ticks st) else ticks st
              | None => S (ticks st)
              end).
  { unfold shared_instant_reads. destruct time as [t|];
      [destruct (is_blank t)|]; lia. }
  destruct (convertTime_run src tgt time st)
    as [H | Hs Ht _ | e Hs Ht _ _ | s e Hs Ht _ _ _ | s g Hs Ht _ _ _ _
        | s g Hs Ht _ _ _ _ _];
    cbn [snd after ticks];
    try (rewrite Hs, Ht; cbn [orb]; exact R).
  destruct H as [H|H]; rewrite H; rewrite ?orb_true_r; reflexivity.
Qed.

End ConvertTimeRuns.

(* ===================================================================== *)
(** * The calculation functions, one by one *)
(* ===================================================================== *)

Ltac same_state :=
  unfold after; cbn;
  repeat rewrite <- app_assoc; cbn;
  rewrite ?Nat.add_0_r, ?Nat.add_1_r;
  try reflexivity;
  repeat f_equal; lia.

Section CalculationRuns.

Context (L : Dayjs).

Lemma getDaysInMonth_given (d : jsstring) (st : State) :
  truthy_str d = true ->
  getDaysInMonth L (Some d) st =
    (Returned (daysInMonth L (dayjs_parse L d)),
     after st 0 [Call_dayjs (Some d); Call_daysInMonth]).
Proof.
  intros H. unfold getDaysInMonth. cbn [truthy_opt]. rewrite H. run_monad.
  same_state.
Qed.

Lemma getDaysInMonth_empty (st : State) :
  getDaysInMonth L (Some empty) st = getDaysInMonth L None st.
Proof. reflexivity. Qed.


Lemma getRelativeTime_run (t : jsstring) (st : State) :
  getRelativeTime L t st =
    (Returned (fromNow L (dayjs_parse L t) (clock st (ticks st))),
     after st 1 [Call_dayjs (Some t); Call_fromNow]).
Proof. unfold getRelativeTime. run_monad. same_state. Qed.



Lemma getCurrentTime_run fmt (timezone : option jsstring) (st : State) :
  let zone := match timezone with Some z => z | None => tz_guess L end in
  let calls :=
    [Call_dayjs_utc None]
      ++ (match timezone with Some _ => [] | None => [Call_tz_guess] end)
      ++ [Call_dayjs None; Call_tz zone] in
  getCurrentTime L fmt timezone st =
    match tz L (dayjs_now L (clock st (S (ticks st)))) zone with
    | Returned d =>
        (Returned
           {| ct_utc := format L (dayjs_utc_now L (clock st (ticks st))) fmt;
              ct_local := format L d fmt;
              ct_timezone := zone |},
         after st 2 (calls ++ [Call_format fmt; Call_format fmt]))
    | Threw e => (Threw e, after st 2 calls)
    end.
Proof.
  unfold getCurrentTime.
  destruct timezone as [z|]; run_monad;
    match goal with
    | |- context [tz L ?d ?z] => destruct (tz L d z) as [x|e]
    end; cbn; same_state.
Qed.

End CalculationRuns.

(* ===================================================================== *)
(** * The tools, one by one *)
(* ===================================================================== *)

Section ToolRuns.

Context (L : Dayjs).


Ltac enter_tool t :=
  unfold callToolHandler, callToolBody, try_catch;
  change (switch_name _) with (switch_name (tool_name t));
  rewrite switch_name_tool;
  unfold checkCurrentTimeArgs, checkRelativeTimeArgs, checkDaysInMonthArgs,
    checkTimestampArgs, checkConvertTimeArgs, checkWeekOfYearArgs,
    read_member, has_member, member, throw_if;
  cbn [is_undefined is_null orb typeof TypeTag_eqb andb negb].

(** X7. A days_in_month call whose date is a string never fails. A date
    that is not the empty string is parsed, whatever the library makes of
    it, and the clock is not read; the empty string, the one input that
    reaches the default of [getDaysInMonth], gives the count for the month
    the clock is in. *)
Theorem days_in_month_never_fails (m : gmap jsstring Json) (d : jsstring)
    (st : State) :
  m !! lit "date" = Some (JString d) ->
  callToolHandler L (lit "days_in_month") (Some (JObject m)) st =
    if truthy_str d
    then (Returned (text_result true
            (lit "The number of days in month is "
               ++ Number_toString (daysInMonth L (dayjs_parse L d))
               ++ lit ".")),
          after st 0 [Call_dayjs (Some d); Call_daysInMonth])
    else (Returned (text_result true
            (lit "The number of days in month is "
               ++ Number_toString
                    (daysInMonth L (dayjs_now L (clock st (ticks st))))
               ++ lit ".")),
          after st 1 [Call_dayjs None; Call_daysInMonth]).
Proof.
  intros Hm. enter_tool days_in_month. rewrite Hm.
  cbn [negb orb andb typeof TypeTag_eqb].
  unfold bind at 1. unfold ret at 1. cbn [as_opt_string]. unfold bind at 1.
  destruct (truthy_str d) eqn:Hd.
  - rewrite getDaysInMonth_given by exact Hd. reflexivity.
  - destruct d; [|discriminate Hd].
    change (Some []) with (Some empty).
    rewrite getDaysInMonth_empty, getDaysInMonth_now. reflexivity.
Qed.

(** X8. A relative_time call whose time is a string never fails: the text
    is whatever the library's [fromNow] answers for the parsed string,
    unparsable strings included; the string is parsed first and the clock
    is read once. *)
Theorem relative_time_never_fails (m : gmap jsstring Json) (t : jsstring)
    (st : State) :
  m !! lit "time" = Some (JString t) ->
  callToolHandler L (lit "relative_time") (Some (JObject m)) st =
    (Returned (text_result true
       (fromNow L (dayjs_parse L t) (clock st (ticks st)))),
     after st 1 [Call_dayjs (Some t); Call_fromNow]).
Proof.
  intros Hm. enter_tool relative_time. rewrite Hm.
  cbn [negb orb andb typeof TypeTag_eqb].
  unfold bind at 1. unfold ret at 1. cbn [as_string]. unfold bind at 1.
  rewrite getRelativeTime_run. reflexivity.
Qed.


(** X10. A current_time call whose format is a string and whose timezone
    is absent or a string reads the clock twice: the UTC text is formatted
    from the first reading and the zone text from the second. The zone is
    the given string as it is, the empty string included, and the host's
    zone only when none is given. When the library refuses the zone the
    answer is success=false with the library's own message, not wrapped. *)
Theorem current_time_run (m : gmap jsstring Json) (fmt : jsstring)
    (timezone : option jsstring) (st : State) :
  m !! lit "format" = Some (JString fmt) ->
  m !! lit "timezone" = JString <$> timezone ->
  let zone := match timezone with Some z => z | None => tz_guess L end in
  let calls :=
    [Call_dayjs_utc None]
      ++ (match timezone with Some _ => [] | None => [Call_tz_guess] end)
      ++ [Call_dayjs None; Call_tz zone] in
  callToolHandler L (lit "current_time") (Some (JObject m)) st =
    match tz L (dayjs_now L (clock st (S (ticks st)))) zone with
    | Returned d =>
        (Returned (text_result true
           (lit "Current UTC time is "
              ++ format L (dayjs_utc_now L (clock st (ticks st))) fmt
              ++ lit ", and the time in " ++ zone
              ++ lit " is " ++ format L d fmt ++ lit ".")),
         after st 2 (calls ++ [Call_format fmt; Call_format fmt]))
    | Threw e =>
        (Returned (text_result false (error_message e)), after st 2 calls)
    end.
Proof.
  intros Hf Hz zone calls. enter_tool current_time. rewrite Hf, Hz.
  destruct timezone as [z|]; cbn [fmap option_fmap option_map] in *;
    cbn [negb orb andb typeof TypeTag_eqb as_string as_opt_string];
    unfold bind at 1; rewrite getCurrentTime_run;
    subst zone calls;
    match goal with
    | |- context [tz L ?d ?z] => destruct (tz L d z) as [x|e]
    end; reflexivity.
Qed.

(** X11. The wording of a successful convert_time answer follows the
    instant that was used: the text starts with "At <time>, the" exactly
    when the given string was parsed (and the clock was not read), and with
    "The current" exactly when the clock was read, which is also the case
    of a given but blank string. *)
Theorem convert_time_wording_follows_instant (m : gmap jsstring Json)
    (src tgt : jsstring) (time : option jsstring) (st : State)
    (s g : dayjs_t L) :
  let i := shared_instant L time (clock st (ticks st)) in
  m !! lit "sourceTimezone" = Some (JString src) ->
  m !! lit "targetTimezone" = Some (JString tgt) ->
  m !! lit "time" = JString <$> time ->
  is_blank src = false -> is_blank tgt = false ->
  isValid L i = true ->
  tz L i src = Returned s -> tz L i tgt = Returned g ->
  isValid L s = true -> isValid L g = true ->
  callToolHandler L (lit "convert_time") (Some (JObject m)) st =
    (Returned (text_result true
       ((match shared_instant_call time with
         | Call_dayjs_utc (Some t) => lit "At " ++ t ++ lit ", the"
         | _ => lit "The current"
         end)
          ++ lit " time in " ++ src
          ++ lit " is " ++ format L s formatString
          ++ lit ", and in " ++ tgt
          ++ lit " is " ++ format L g formatString
          ++ lit ". Time difference: "
          ++ formatTimeDifference (utcOffset L g - utcOffset L s)
          ++ lit ".")),
     after st (shared_instant_reads time)
       [shared_instant_call time; Call_isValid; Call_tz src; Call_tz tgt;
        Call_isValid; Call_isValid; Call_utcOffset; Call_utcOffset;
        Call_format formatString; Call_format formatString]).
Proof.
  intros i Hms Hmt Hmi Hs Ht Hi Hzs Hzg Hvs Hvg.
  enter_tool convert_time. rewrite Hms, Hmt, Hmi.
  assert (Hopt : as_opt_string (JString <$> time) = time)
    by (destruct time; reflexivity).
  assert (V : (match JString <$> time with
               | Some _ => true
               | None => false
               end &&
               negb (is_undefined (JString <$> time)) &&
               negb (TypeTag_eqb (typeof (JString <$> time)) TString)) = false)
    by (destruct time; reflexivity).
  cbn [negb orb andb typeof TypeTag_eqb as_string].
  rewrite V, Hopt. cbn [negb]. unfold bind at 1.
  rewrite (convertTime_success L src tgt time st s g) by assumption.
  unfold ret. cbn [sourceTime targetTime timeDiff].
  destruct time as [t|]; [|reflexivity].
  rewrite hasValidTime_Some. unfold shared_instant_call.
  destruct (is_blank t); reflexivity.
Qed.

(** X1. The handler answers success=true only for one of the six names and
    only for arguments the validator of that tool accepts. *)
Theorem handler_success_implies_validated (name : jsstring) (args : JsValue)
    (st : State) (r : CallToolResult) (st' : State) :
  callToolHandler L name args st = (Returned r, st') ->
  success r = true ->
  exists t, name = tool_name t /\ check_args t args = true.
Proof.
  intros E S.
  destruct (switch_name name) as [t|] eqn:N.
  - apply switch_name_Some in N. subst name. exists t. split; [reflexivity|].
    destruct (check_args t args) eqn:V; [reflexivity|].
    rewrite handler_invalid_arguments in E by exact V.
    injection E as <- _. discriminate S.
  - rewrite handler_unknown_tool in E by exact N.
    injection E as <- _. discriminate S.
Qed.


End ToolRuns.

(* ===================================================================== *)
(** * What the rendered difference keeps *)
(* ===================================================================== *)

Section RenderingFacts.

Lemma digits_are_digits (u : Decimal.uint) :
  Forall (fun c => (48 <= c <= 57)%N) (digits u).
Proof.
  induction u; cbn [digits]; constructor; try assumption; lia.
Qed.

Lemma digits_inj (u v : Decimal.uint) : digits u = digits v -> u = v.
Proof.
  revert v. induction u as [|u IH|u IH|u IH|u IH|u IH|u IH|u IH|u IH|u IH|u IH];
    intros v E; destruct v; cbn [digits] in E; try discriminate E;
    try reflexivity; injection E as E; f_equal; apply IH; exact E.
Qed.

Lemma Z_toString_digits (n : Z) :
  0 <= n -> Forall (fun c => (48 <= c <= 57)%N) (Z_toString n).
Proof.
  intros H. destruct n as [|p|p]; [| apply digits_are_digits | lia].
  repeat constructor; cbn; lia.
Qed.

Lemma Z_toString_inj (a b : Z) :
  0 <= a -> 0 <= b -> Z_toString a = Z_toString b -> a = b.
Proof.
  intros Ha Hb E. destruct a as [|p|p], b as [|q|q]; try lia; cbn in E.
  - change (lit "0") with (digits (Decimal.D0 Decimal.Nil)) in E.
    apply digits_inj in E.
    pose proof (Unsigned.of_to q) as T. rewrite <- E in T. discriminate T.
  - change (lit "0") with (digits (Decimal.D0 Decimal.Nil)) in E.
    apply digits_inj in E.
    pose proof (Unsigned.of_to p) as T. rewrite E in T. discriminate T.
  - apply digits_inj, Unsigned.to_uint_inj in E. congruence.
Qed.

(** Two runs of digits, each followed by a space, that agree as strings
    agree run by run. *)
Lemma split_at_space (ds ds' r r' : jsstring) :
  Forall (fun c => (48 <= c <= 57)%N) ds ->
  Forall (fun c => (48 <= c <= 57)%N) ds' ->
  ds ++ 32%N :: r = ds' ++ 32%N :: r' -> ds = ds' /\ r = r'.
Proof.
  intros Hd. revert ds'. induction Hd as [|c ds Hc Hd IH]; intros ds' Hd' E.
  - destruct Hd' as [|c' ds' Hc' Hd']; cbn in E.
    + injection E as E. split; [reflexivity | exact E].
    + injection E as E _. lia.
  - destruct Hd' as [|c' ds' Hc' Hd']; cbn in E.
    + injection E as E _. lia.
    + injection E as E1 E2. destruct (IH ds' Hd' E2) as [-> ->].
      subst c'. split; reflexivity.
Qed.

Lemma spec_unit_inj (unit : string) (a b : Z) (r r' : jsstring) :
  0 <= a -> 0 <= b ->
  spec_unit a unit ++ r = spec_unit b unit ++ r' -> a = b /\ r = r'.
Proof.
  intros Ha Hb E. unfold spec_unit in E.
  change (lit " ") with [32%N] in E.
  repeat rewrite <- app_assoc in E. cbn [app] in E.
  apply split_at_space in E; try (apply Z_toString_digits; assumption).
  destruct E as [E1 E2]. apply Z_toString_inj in E1; try assumption.
  subst b. split; [reflexivity|].
  apply app_inv_head in E2. apply app_inv_head in E2. exact E2.
Qed.

(** X13. Distinct differences never render to the same string: the
    rendered difference determines the number of minutes. *)
Theorem formatTimeDifference_injective (a b : Z) :
  formatTimeDifference a = formatTimeDifference b -> a = b.
Proof.
  rewrite !formatTimeDifference_spec. unfold spec_rendered_difference.
  intros E.
  assert (Ha : 0 <= Z.abs a / 60) by (apply Z.div_pos; lia).
  assert (Hb : 0 <= Z.abs b / 60) by (apply Z.div_pos; lia).
  assert (Ra : 0 <= Z.abs a mod 60 < 60) by (apply Z.mod_pos_bound; lia).
  assert (Rb : 0 <= Z.abs b mod 60 < 60) by (apply Z.mod_pos_bound; lia).
  assert (S : (a <? 0) = (b <? 0) /\
              spec_unit (Z.abs a / 60) "hour" ++
                (if Z.abs a mod 60 =? 0 then []
                 else lit " " ++ spec_unit (Z.abs a mod 60) "minute") =
              spec_unit (Z.abs b / 60) "hour" ++
                (if Z.abs b mod 60 =? 0 then []
                 else lit " " ++ spec_unit (Z.abs b mod 60) "minute")).
  { revert E. change (lit "-") with [45%N]. change (lit "+") with [43%N].
    destruct (a <? 0), (b <? 0); cbn [app]; intros E;
      try discriminate E; injection E as E;
      (split; [reflexivity | exact E]). }
  destruct S as [Sg E'].
  apply spec_unit_inj in E' as [Eh Em]; try assumption.
  assert (Er : Z.abs a mod 60 = Z.abs b mod 60).
  { change (lit " ") with [32%N] in Em. revert Em.
    destruct (Z.eqb_spec (Z.abs a mod 60) 0) as [Za|Za],
             (Z.eqb_spec (Z.abs b mod 60) 0) as [Zb|Zb];
      cbn [app]; intros Em; try discriminate Em; [congruence|].
    injection Em as Em.
    rewrite <- (app_nil_r (spec_unit (Z.abs a mod 60) "minute")) in Em.
    rewrite <- (app_nil_r (spec_unit (Z.abs b mod 60) "minute")) in Em.
    apply spec_unit_inj in Em as [Em _]; lia. }
  assert (Eabs : Z.abs a = Z.abs b).
  { rewrite (Z.div_mod (Z.abs a) 60), (Z.div_mod (Z.abs b) 60) by lia.
    rewrite Eh, Er. reflexivity. }
  destruct (Z.ltb_spec a 0), (Z.ltb_spec b 0); try discriminate Sg; lia.
Qed.

(** X14. Negating a difference changes the sign of the rendering and
    nothing else: what follows the sign is the same string. *)
Theorem formatTimeDifference_negation (m : Z) :
  tl (formatTimeDifference (- m)) = tl (formatTimeDifference m) /\
  (m <> 0 ->
   hd_error (formatTimeDifference (- m)) <> hd_error (formatTimeDifference m)).
Proof.
  rewrite !formatTimeDifference_spec. unfold spec_rendered_difference.
  rewrite Z.abs_opp.
  change (lit "-") with [45%N]. change (lit "+") with [43%N].
  split.
  - destruct (- m <? 0), (m <? 0); reflexivity.
  - intros H.
    destruct (Z.ltb_spec (- m) 0), (Z.ltb_spec m 0); try lia;
      cbn; discriminate.
Qed.

End RenderingFacts.

(* ===================================================================== *)
(** * Conversions both ways, failures, and the validator of convert_time *)
(* ===================================================================== *)

Section ConversionFacts.

Context (L : Dayjs).

(** X15. Converting the other way round, from the same state, reports the
    two times swapped and the same difference with the opposite sign: what
    follows the sign in the rendered difference is the same string. *)
Theorem convertTime_swap src tgt time (st : State) (s g : dayjs_t L) :
  let i := shared_instant L time (clock st (ticks st)) in
  is_blank src = false -> is_blank tgt = false ->
  isValid L i = true ->
  tz L i src = Returned s -> tz L i tgt = Returned g ->
  isValid L s = true -> isValid L g = true ->
  exists r r',
    fst (convertTime L src tgt time st) = Returned r /\
    fst (convertTime L tgt src time st) = Returned r' /\
    sourceTime r' = targetTime r /\
    targetTime r' = sourceTime r /\
    timeDiff r = formatTimeDifference (utcOffset L g - utcOffset L s) /\
    timeDiff r' = formatTimeDifference (- (utcOffset L g - utcOffset L s)) /\
    tl (timeDiff r') = tl (timeDiff r).
Proof.
  intros i Hs Ht Hi Hzs Hzg Hvs Hvg.
  rewrite (convertTime_success L src tgt time st s g) by assumption.
  rewrite (convertTime_success L tgt src time st g s) by assumption.
  eexists. eexists. cbn [fst sourceTime targetTime timeDiff].
  split; [reflexivity|]. split; [reflexivity|].
  split; [reflexivity|]. split; [reflexivity|]. split; [reflexivity|].
  assert (E : utcOffset L s - utcOffset L g =
              - (utcOffset L g - utcOffset L s)) by lia.
  rewrite E. split; [reflexivity|].
  apply formatTimeDifference_negation.
Qed.

(** X16. Whenever a convert_time call whose zones are strings and whose
    time is absent or a string fails, for whatever reason (a blank zone, an
    instant that does not parse, a zone the library refuses, an invalid
    view), the text of the answer starts with "Failed to convert time from
    <source> to <target>: ", with both zones as they were given. *)
Theorem convert_time_failure_names_zones (m : gmap jsstring Json)
    (src tgt : jsstring) (time : option jsstring) (st : State)
    (r : CallToolResult) (st' : State) :
  m !! lit "sourceTimezone" = Some (JString src) ->
  m !! lit "targetTimezone" = Some (JString tgt) ->
  m !! lit "time" = JString <$> time ->
  callToolHandler L (lit "convert_time") (Some (JObject m)) st
    = (Returned r, st') ->
  success r = false ->
  exists cause,
    r = text_result false
          (lit "Failed to convert time from " ++ src ++ lit " to " ++ tgt
             ++ lit ": " ++ cause).
Proof.
  intros Hms Hmt Hmi E S. revert E.
  unfold callToolHandler, callToolBody, try_catch.
  change (switch_name _) with (switch_name (tool_name convert_time)).
  rewrite switch_name_tool.
  unfold checkConvertTimeArgs, has_member, member, throw_if.
  cbn [is_undefined is_null orb typeof TypeTag_eqb andb negb].
  rewrite Hms, Hmt, Hmi.
  assert (Hopt : as_opt_string (JString <$> time) = time)
    by (destruct time; reflexivity).
  assert (V : (match JString <$> time with
               | Some _ => true
               | None => false
               end &&
               negb (is_undefined (JString <$> time)) &&
               negb (TypeTag_eqb (typeof (JString <$> time)) TString)) = false)
    by (destruct time; reflexivity).
  cbn [negb orb andb typeof TypeTag_eqb as_string].
  rewrite V, Hopt. cbn [negb]. unfold bind at 1.
  pose proof (convertTime_failures_are_wrapped L src tgt time st) as W.
  destruct (convertTime L src tgt time st) as [[c|e] st1]; cbn [fst] in W.
  - unfold ret. intros E. injection E as <- _. discriminate S.
  - destruct W as (cause & -> & _). unfold ret. intros E.
    injection E as <- _. exists cause. reflexivity.
Qed.

(** X17. The validator of convert_time accepts exactly the argument
    objects whose two zones are strings and whose time is absent or a
    string: no array, no [null], no [time: null], no number for a zone. *)
Theorem checkConvertTimeArgs_accepts_exactly (args : JsValue) :
  checkConvertTimeArgs args = true <->
  exists m src tgt,
    args = Some (JObject m) /\
    m !! lit "sourceTimezone" = Some (JString src) /\
    m !! lit "targetTimezone" = Some (JString tgt) /\
    (m !! lit "time" = None \/ exists t, m !! lit "time" = Some (JString t)).
Proof.
  split.
  - unfold checkConvertTimeArgs, has_member, member.
    destruct args as [[| b | n | x | xs | m]|]; cbn; try discriminate.
    destruct (m !! lit "sourceTimezone") as [[| | | src | |]|] eqn:Hs;
      cbn; try discriminate.
    destruct (m !! lit "targetTimezone") as [[| | | tgt | |]|] eqn:Ht;
      cbn; try discriminate.
    destruct (m !! lit "time") as [[| | | t | |]|] eqn:Hi;
      cbn; try discriminate; intros _; exists m, src, tgt;
      (split; [reflexivity|]); (split; [assumption|]);
      (split; [assumption|]).
    + right. exists t. assumption.
    + left. assumption.
  - intros (m & src & tgt & -> & Hs & Ht & Hi).
    unfold checkConvertTimeArgs, has_member, member. cbn [typeof is_null].
    rewrite Hs, Ht. destruct Hi as [-> | [t ->]]; reflexivity.
Qed.

(** X18. Against the earlier validator of convert_time, which required
    the time: the validator accepts everything the earlier one accepted,
    and the arguments it accepts beyond those are exactly the ones without
    a time. *)
Theorem legacy_arguments_still_accepted (args : JsValue) :
  Legacy.checkConvertTimeArgs args =
    checkConvertTimeArgs args && has_member (lit "time") args.
Proof.
  unfold Legacy.checkConvertTimeArgs, checkConvertTimeArgs, has_member, member.
  destruct args as [[| b | n | x | xs | m]|]; cbn; try reflexivity.
  destruct (m !! lit "sourceTimezone") as [[]|]; cbn; try reflexivity;
    destruct (m !! lit "targetTimezone") as [[]|]; cbn; try reflexivity;
    destruct (m !! lit "time") as [[]|]; cbn; reflexivity.
Qed.

End ConversionFacts.

(* ===================================================================== *)
(** * Calls without an argument object *)
(* ===================================================================== *)

Section NoArguments.

Context (L : Dayjs).

(** X4. A call that carries no argument object ([undefined] or [null])
    is refused as invalid arguments by every tool but get_timestamp, the
    tools whose arguments are all optional included (days_in_month,
    get_week_year); nothing is computed. *)
Theorem no_arguments_refused (t : Tool) (args : JsValue) (st : State) :
  args = undefined \/ args = Some JNull ->
  t <> get_timestamp ->
  check_args t args = false /\
  callToolHandler L (tool_name t) args st =
    (Returned (text_result false
       (lit "Invalid arguments for tool: [" ++ tool_name t ++ lit "]")),
     st).
Proof.
  intros Ha Ht.
  assert (V : check_args t args = false).
  { destruct Ha as [-> | ->]; destruct t; try reflexivity;
      exfalso; apply Ht; reflexivity. }
  split; [exact V | apply handler_invalid_arguments; exact V].
Qed.

End NoArguments.

(* ===================================================================== *)
(** * Runs on the fixture *)
(* ===================================================================== *)

Section ExtraWitnesses.

Import Fixture.


Lemma days_in_month_never_fails_witness :
  callToolHandler lib (lit "days_in_month")
    (object [(lit "date", JString empty)]) (world midnight 1) =
  (Returned (text_result true
     (lit "The number of days in month is "
        ++ Number_toString
             (daysInMonth lib
                (dayjs_now lib (clock (world midnight 1)
                                  (ticks (world midnight 1)))))
        ++ lit ".")),
   after (world midnight 1) 1 [Call_dayjs None; Call_daysInMonth]).
Proof.
  apply (days_in_month_never_fails lib
           (list_to_map [(lit "date", JString empty)]) empty
           (world midnight 1)).
  vm_compute. reflexivity.
Defined.

Lemma relative_time_never_fails_witness :
  callToolHandler lib (lit "relative_time")
    (object [(lit "time", JString (lit "2025-10-16T21:00:00"))])
    (world midnight 1) =
  (Returned (text_result true
     (fromNow lib (dayjs_parse lib (lit "2025-10-16T21:00:00"))
        (clock (world midnight 1) (ticks (world midnight 1))))),
   after (world midnight 1) 1
     [Call_dayjs (Some (lit "2025-10-16T21:00:00")); Call_fromNow]) /\
  fromNow lib (dayjs_parse lib (lit "2025-10-16T21:00:00")) midnight =
    lit "3 hours ago".
Proof.
  split; [|vm_compute; reflexivity].
  apply (relative_time_never_fails lib
           (list_to_map [(lit "time", JString (lit "2025-10-16T21:00:00"))])
           (lit "2025-10-16T21:00:00") (world midnight 1)).
  vm_compute. reflexivity.
Defined.


Lemma current_time_run_witness :
  fst (callToolHandler lib (lit "current_time")
         (object [(lit "format", JString formatString);
                  (lit "timezone", JString empty)])
         (world midnight 1000)) =
    Returned (text_result false (lit "Invalid time zone specified: ")) /\
  fst (callToolHandler lib (lit "current_time")
         (object [(lit "format", JString formatString);
                  (lit "timezone", JString kolkata)])
         (world midnight 1000)) =
    Returned (text_result true (lit
      "Current UTC time is 2025-10-17 00:00:00, and the time in Asia/Kolkata is 2025-10-17 05:30:01.")).
Proof.
  unfold object. split.
  - rewrite (current_time_run lib
               (list_to_map [(lit "format", JString formatString);
                             (lit "timezone", JString empty)])
               formatString (Some empty) (world midnight 1000));
      vm_compute; reflexivity.
  - rewrite (current_time_run lib
               (list_to_map [(lit "format", JString formatString);
                             (lit "timezone", JString kolkata)])
               formatString (Some kolkata) (world midnight 1000));
      vm_compute; reflexivity.
Defined.

Lemma convert_time_wording_follows_instant_witness :
  fst (callToolHandler lib (lit "convert_time")
         (object [(lit "sourceTimezone", JString kolkata);
                  (lit "targetTimezone", JString kathmandu);
                  (lit "time", JString (lit " "))])
         (world midnight 1)) =
    Returned (text_result true (lit
      "The current time in Asia/Kolkata is 2025-10-17 05:30:00, and in Asia/Kathmandu is 2025-10-17 05:45:00. Time difference: +0 hours 15 minutes.")).
Proof.
  unfold object.
  rewrite (convert_time_wording_follows_instant lib
             (list_to_map [(lit "sourceTimezone", JString kolkata);
                           (lit "targetTimezone", JString kathmandu);
                           (lit "time", JString (lit " "))])
             kolkata kathmandu (Some (lit " ")) (world midnight 1)
             {| epoch := Some midnight; offset := 330 |}
             {| epoch := Some midnight; offset := 345 |});
    vm_compute; reflexivity.
Defined.

Lemma handler_success_implies_validated_witness :
  exists t,
    lit "get_timestamp" = tool_name t /\ check_args t (object []) = true.
Proof.
  apply (handler_success_implies_validated lib (lit "get_timestamp")
           (object []) (world midnight 1)
           (text_result true (lit "The current timestamp is 1760659200000 ms."))
           (snd (callToolHandler lib (lit "get_timestamp") (object [])
                   (world midnight 1)))).
  - rewrite (surjective_pairing
               (callToolHandler lib (lit "get_timestamp") (object [])
                  (world midnight 1))).
    f_equal; vm_compute; reflexivity.
  - reflexivity.
Defined.


Lemma formatTimeDifference_injective_witness : (330 : Z) = 330.
Proof.
  apply (formatTimeDifference_injective 330 330). reflexivity.
Defined.

Lemma formatTimeDifference_negation_witness :
  hd_error (formatTimeDifference (- 330)) <>
  hd_error (formatTimeDifference 330).
Proof.
  apply (proj2 (formatTimeDifference_negation 330)). discriminate.
Defined.

Lemma convertTime_swap_witness :
  exists r r',
    fst (convertTime lib kolkata kathmandu None (world midnight 1))
      = Returned r /\
    fst (convertTime lib kathmandu kolkata None (world midnight 1))
      = Returned r' /\
    sourceTime r' = targetTime r /\
    targetTime r' = sourceTime r /\
    timeDiff r = formatTimeDifference (345 - 330) /\
    timeDiff r' = formatTimeDifference (- (345 - 330)) /\
    tl (timeDiff r') = tl (timeDiff r).
Proof.
  apply (convertTime_swap lib kolkata kathmandu None (world midnight 1)
           {| epoch := Some midnight; offset := 330 |}
           {| epoch := Some midnight; offset := 345 |});
    vm_compute; reflexivity.
Defined.

Lemma convert_time_failure_names_zones_witness :
  exists cause,
    text_result false (lit
      "Failed to convert time from Asia/Kolkata to Mars/Olympus: Invalid time zone specified: Mars/Olympus")
    = text_result false
        (lit "Failed to convert time from " ++ kolkata ++ lit " to "
           ++ lit "Mars/Olympus" ++ lit ": " ++ cause).
Proof.
  apply (convert_time_failure_names_zones lib
           (list_to_map [(lit "sourceTimezone", JString kolkata);
                         (lit "targetTimezone", JString (lit "Mars/Olympus"))])
           kolkata (lit "Mars/Olympus") None (world midnight 1)
           _
           (snd (callToolHandler lib (lit "convert_time")
                   (object [(lit "sourceTimezone", JString kolkata);
                            (lit "targetTimezone",
                             JString (lit "Mars/Olympus"))])
                   (world midnight 1)))).
  - vm_compute. reflexivity.
  - vm_compute. reflexivity.
  - vm_compute. reflexivity.
  - rewrite (surjective_pairing
               (callToolHandler lib (lit "convert_time")
                  (Some (JObject
                     (list_to_map
                        [(lit "sourceTimezone", JString kolkata);
                         (lit "targetTimezone",
                          JString (lit "Mars/Olympus"))])))
                  (world midnight 1))).
    f_equal; vm_compute; reflexivity.
  - reflexivity.
Defined.

Lemma checkConvertTimeArgs_accepts_exactly_witness :
  checkConvertTimeArgs
    (object [(lit "sourceTimezone", JString kolkata);
             (lit "targetTimezone", JString kathmandu)]) = true.
Proof.
  apply (proj2 (checkConvertTimeArgs_accepts_exactly _)).
  exists (list_to_map [(lit "sourceTimezone", JString kolkata);
                       (lit "targetTimezone", JString kathmandu)]),
    kolkata, kathmandu.
  split; [reflexivity|].
  split; [vm_compute; reflexivity|].
  split; [vm_compute; reflexivity|].
  left. vm_compute. reflexivity.
Defined.

Lemma no_arguments_refused_witness :
  callToolHandler lib (lit "get_week_year") undefined (world midnight 1) =
    (Returned (text_result false
       (lit "Invalid arguments for tool: [" ++ tool_name get_week_year
          ++ lit "]")),
     world midnight 1).
Proof.
  apply (no_arguments_refused lib get_week_year undefined (world midnight 1)).
  - left. reflexivity.
  - discriminate.
Defined.

End ExtraWitnesses.
